(** * RAG_LANG: the retrieval-and-answer pipeline, embedded in Rocq

    The development follows the Python sources module by module:
    [config.py], [utils.py], [groq_client.py], [document_processor.py],
    [vector_store.py] and [rag_system.py].

    - A Python [str] is a sequence of Unicode code points: [pystr := list N].
      Literals are written as in the sources and decoded from UTF-8.
    - A Python [float] is a binary64 number: the kernel's primitive [float].
    - Exceptions are values of [exn]; code that may raise lives in the monad
      [M S], which threads the receiver object [S] and the outside [World]
      (the persisted vector index and the log of calls that left the
      process) and keeps both when an exception travels.
    - What a method prints is not part of its result and is left out.
    - What the libraries and services outside the repository answer (the
      Unicode tables, the HTTP endpoint, the embedding service, the index,
      the file loaders, the text splitter) is read from an [Env] of oracles;
      every theorem holds for all of them. *)

From Stdlib Require Import List NArith ZArith String Ascii Bool Lia.
From Stdlib Require Import Floats Uint63 DecimalString.
Import ListNotations.

Set Implicit Arguments.

(* ===================================================================== *)
(** * Python strings *)
(* ===================================================================== *)

Module PyStr.

(** A [str]: its code points, in order. *)
Definition pystr : Type := list N.

(** The bytes of a literal as Rocq reads it from the file (UTF-8). *)
Definition bytes_of (s : string) : list N :=
  map N_of_ascii (list_ascii_of_string s).

Definition cont (b : N) : N := N.land b 63.

(** UTF-8 decoding of the bytes of a literal; a truncated tail is dropped. *)
Fixpoint utf8_decode (bs : list N) : pystr :=
  match bs with
  | [] => []
  | b0 :: r0 =>
    if (b0 <? 128)%N then b0 :: utf8_decode r0
    else match r0 with
    | [] => []
    | b1 :: r1 =>
      if (b0 <? 224)%N
      then N.lor (N.shiftl (N.land b0 31) 6) (cont b1) :: utf8_decode r1
      else match r1 with
      | [] => []
      | b2 :: r2 =>
        if (b0 <? 240)%N
        then N.lor (N.shiftl (N.land b0 15) 12)
                   (N.lor (N.shiftl (cont b1) 6) (cont b2)) :: utf8_decode r2
        else match r2 with
        | [] => []
        | b3 :: r3 =>
          N.lor (N.shiftl (N.land b0 7) 18)
                (N.lor (N.shiftl (cont b1) 12)
                       (N.lor (N.shiftl (cont b2) 6) (cont b3)))
            :: utf8_decode r3
        end
      end
    end
  end.

(** A literal of the sources. *)
Definition lit (s : string) : pystr := utf8_decode (bytes_of s).

(** [a == b] on strings. *)
Fixpoint eqb (a b : pystr) : bool :=
  match a, b with
  | [], [] => true
  | x :: a', y :: b' => (x =? y)%N && eqb a' b'
  | _, _ => false
  end.

(** [s.startswith(p)]. *)
Fixpoint starts_with (p s : pystr) : bool :=
  match p, s with
  | [], _ => true
  | x :: p', y :: s' => (x =? y)%N && starts_with p' s'
  | _ :: _, [] => false
  end.

(** [needle in hay] *)
Fixpoint contains (needle hay : pystr) : bool :=
  starts_with needle hay ||
  match hay with
  | [] => false
  | _ :: hay' => contains needle hay'
  end.

(** The same, as a proposition: [hay] is [pre ++ needle ++ post]. *)
Definition Contains (needle hay : pystr) : Prop :=
  exists pre post, hay = pre ++ needle ++ post.

(** [sep.join(parts)] *)
Fixpoint join (sep : pystr) (parts : list pystr) : pystr :=
  match parts with
  | [] => []
  | [p] => p
  | p :: rest => p ++ sep ++ join sep rest
  end.

(** [s.split(sep)[-1]] for a one-character separator: what follows the last
    occurrence of [sep], the whole string when there is none. *)
Fixpoint last_field (sep : N) (s : pystr) : pystr :=
  match s with
  | [] => []
  | c :: s' =>
    if existsb (N.eqb sep) s' then last_field sep s'
    else if (c =? sep)%N then s' else s
  end.

(** [s.lower()] on the letters A-Z.  Python lowers by the Unicode tables;
    the sources only compare the result with [".pdf"] and [".txt"], and no
    character outside A-Z lowers to one of the letters p, d, f, t, x. *)
Definition lower_char (c : N) : N :=
  if ((65 <=? c) && (c <=? 90))%N then (c + 32)%N else c.

Definition lower (s : pystr) : pystr := map lower_char s.

(** [str(n)] for an [int]. *)
Definition of_Z (z : Z) : pystr :=
  bytes_of (NilZero.string_of_int (Z.to_int z)).

Definition of_nat (n : nat) : pystr := of_Z (Z.of_nat n).

(** The characters the literals cannot hold. *)
Definition quote : pystr := [34%N].
Definition nl : pystr := [10%N].

End PyStr.

Import PyStr.

Notation "'u' s" := (lit s%string) (at level 1, s at level 0, only parsing).

(* ===================================================================== *)
(** * Exceptions and results *)
(* ===================================================================== *)

(** The exception classes the sources name or meet.  [ConnectTimeout]
    derives from both [ConnectionError] and [Timeout] in [requests];
    [OtherError] stands for any other subclass of [Exception]. *)
Inductive exn_class : Type :=
| Timeout
| ReadTimeout
| ConnectTimeout
| ConnectionError
| ValueError
| KeyError
| AttributeError
| OtherError (name : pystr).

(** An exception: its class and [str(e)]. *)
Record exn : Type := Exn { exn_cls : exn_class; exn_str : pystr }.

(** [isinstance(e, requests.exceptions.Timeout)] *)
Definition is_Timeout (e : exn) : bool :=
  match exn_cls e with
  | Timeout | ReadTimeout | ConnectTimeout => true
  | _ => false
  end.

(** [isinstance(e, requests.exceptions.ConnectionError)] *)
Definition is_ConnectionError (e : exn) : bool :=
  match exn_cls e with
  | ConnectionError | ConnectTimeout => true
  | _ => false
  end.

(** What evaluating an expression gives: a value, or an exception. *)
Inductive result (A : Type) : Type :=
| Ok (a : A)
| Raise (e : exn).

Arguments Ok {A} a.
Arguments Raise {A} e.

(* ===================================================================== *)
(** * config.py *)
(* ===================================================================== *)

Module Config.

Record APIConfig : Type := {
  groq_api_key : pystr;
  groq_model : pystr;
  groq_base_url : pystr;
  groq_timeout : Z;
  groq_temperature : float;
  groq_max_tokens : Z
}.

Record OllamaConfig : Type := {
  model : pystr;
  base_url : pystr
}.

Record VectorStoreConfig : Type := {
  chroma_dir : pystr;
  chunk_size : Z;
  chunk_overlap : Z;
  similarity_search_k : Z
}.

Record LanguageConfig : Type := {
  hindi_threshold : float
}.

Record AppConfig : Type := {
  api : APIConfig;
  ollama : OllamaConfig;
  vectorstore : VectorStoreConfig;
  language : LanguageConfig
}.

(** The configuration when only [GROQ_API_KEY] is set: every other setting
    takes its default.  0.1 and 0.3 are the binary64 numbers Python reads
    these literals as. *)
Definition defaults (key : pystr) : AppConfig := {|
  api := {| groq_api_key := key;
            groq_model := u"llama-3.3-70b-versatile";
            groq_base_url := u"https://api.groq.com/openai/v1";
            groq_timeout := 30;
            groq_temperature := 0x1.999999999999ap-4%float;
            groq_max_tokens := 1000 |};
  ollama := {| model := u"nomic-embed-text";
               base_url := u"http://localhost:11434" |};
  vectorstore := {| chroma_dir := u"./chroma_db";
                    chunk_size := 1000;
                    chunk_overlap := 200;
                    similarity_search_k := 3 |};
  language := {| hindi_threshold := 0x1.3333333333333p-2%float |}
|}.

(** [AppConfig.from_env], for an environment that sets at most
    [GROQ_API_KEY]: [os.getenv] gives [None] when it is unset. *)
Definition from_env (GROQ_API_KEY : option pystr) : result AppConfig :=
  match GROQ_API_KEY with
  | None | Some [] =>
    Raise (Exn ValueError u"GROQ_API_KEY environment variable is required")
  | Some key => Ok (defaults key)
  end.

End Config.

(* ===================================================================== *)
(** * The outside of the process *)
(* ===================================================================== *)

(** A LangChain [Document]: its text and the file it comes from. *)
Record Document : Type := {
  page_content : pystr;
  source : pystr
}.

(** The keyword arguments of [requests.post] in [GroqClient.chat]. *)
Record request : Type := {
  req_url : pystr;
  req_authorization : pystr;
  req_content_type : pystr;
  req_model : pystr;
  req_content : pystr;
  req_temperature : float;
  req_max_tokens : Z;
  req_timeout : Z
}.

(** A [requests.Response]: [status_code], [text], and what
    [response.json()["choices"][0]["message"]["content"]] evaluates to: the
    content, a string as the endpoint documents it and as [chat] declares
    its result, or the exception raised on the way (a body that is not
    JSON, a missing key or index). *)
Record response : Type := {
  status_code : Z;
  text : pystr;
  json_content : result pystr
}.

(** The two loaders of [_get_loader]. *)
Inductive loader : Type :=
| PyPDFLoader (file_path : pystr)
| TextLoader (file_path : pystr).

(** The calls that leave the process, as the log records them. *)
Inductive event : Type :=
| EvPost (r : request)
| EvOllamaEmbeddings (m b : pystr)
| EvEmbedQuery (t : pystr)
| EvChroma (dir : pystr)
| EvAddDocuments (docs : list Document)
| EvGetRelevantDocuments (query : pystr) (k : Z)
| EvLoad (l : loader).

(** The outside world: the chunks persisted in the index directory, and
    the log of calls, oldest first. *)
Record World : Type := {
  chroma_store : list Document;
  trace : list event
}.

(** What the outside answers.  An oracle that depends on time takes the
    number of calls logged so far, so the same call may be answered
    differently later.
    - [isalpha]: [str.isalpha] on one character (the Unicode tables);
    - [requests_post]: the HTTP endpoint, or the exception [requests] raises;
    - [new_OllamaEmbeddings], [new_Chroma]: the exception a constructor
      raises, if any;
    - [embed_query]: the embedding of a text;
    - [store_add_documents]: the exception that stops [add_documents], if any;
    - [get_relevant_documents]: the retriever's answer over the persisted
      chunks;
    - [load]: [loader.load()], the construction of the loader included;
    - [text_splitter]: [RecursiveCharacterTextSplitter(chunk_size,
      chunk_overlap).split_documents]. *)
Record Env : Type := {
  isalpha : N -> bool;
  requests_post : nat -> request -> result response;
  new_OllamaEmbeddings : nat -> pystr -> pystr -> option exn;
  embed_query : nat -> pystr -> result (list float);
  new_Chroma : nat -> pystr -> option exn;
  store_add_documents : nat -> list Document -> option exn;
  get_relevant_documents :
    nat -> list Document -> pystr -> Z -> result (list Document);
  load : nat -> loader -> result (list Document);
  text_splitter : Z -> Z -> list Document -> result (list Document)
}.

(* ===================================================================== *)
(** * The monad of methods *)
(* ===================================================================== *)

(** A method of an object of type [S]: from the object and the world to a
    result, the object and the world after.  Assignments made before an
    exception stay made. *)
Definition M (S A : Type) : Type := S -> World -> result A * S * World.

Definition ret {S A} (a : A) : M S A := fun s w => (Ok a, s, w).

Definition bind {S A B} (m : M S A) (k : A -> M S B) : M S B :=
  fun s w =>
    match m s w with
    | (Ok a, s', w') => k a s' w'
    | (Raise e, s', w') => (Raise e, s', w')
    end.

Definition raise {S A} (e : exn) : M S A := fun s w => (Raise e, s, w).

(** [try: m except Exception as e: h e] *)
Definition try_except {S A} (m : M S A) (h : exn -> M S A) : M S A :=
  fun s w =>
    match m s w with
    | (Ok a, s', w') => (Ok a, s', w')
    | (Raise e, s', w') => h e s' w'
    end.

(** Reading and assigning [self]. *)
Definition get {S} : M S S := fun s w => (Ok s, s, w).
Definition put {S} (s : S) : M S unit := fun _ w => (Ok tt, s, w).

(** A method of an attribute, run from the object that holds it. *)
Definition zoom {S T A} (proj : S -> T) (upd : T -> S -> S) (m : M T A)
  : M S A :=
  fun s w => let '(r, t, w') := m (proj s) w in (r, upd t s, w').

(** Lifting a value that is already a result. *)
Definition of_result {S A} (r : result A) : M S A := fun s w => (r, s, w).

(** The world once a call is logged. *)
Definition logged (ev : event) (w : World) : World :=
  {| chroma_store := chroma_store w; trace := trace w ++ [ev] |}.

Arguments logged : simpl never.

(** A call that leaves the process: logged, answered by the oracle. *)
Definition call {S A} (ev : event) (answer : nat -> result A) : M S A :=
  fun s w => (answer (List.length (trace w)), s, logged ev w).

(** Reading and writing the persisted chunks. *)
Definition read_store {S} : M S (list Document) :=
  fun s w => (Ok (chroma_store w), s, w).
Definition write_store {S} (d : list Document) : M S unit :=
  fun s w => (Ok tt, s, {| chroma_store := d; trace := trace w |}).

Declare Scope py_scope.
Delimit Scope py_scope with py.
Notation "x <- m ;; k" := (bind m (fun x => k))
  (at level 100, m at next level, right associativity) : py_scope.
Notation "m ;;; k" := (bind m (fun _ => k))
  (at level 100, right associativity) : py_scope.
Notation "' p <- m ;; k" := (bind m (fun x => let 'p := x in k))
  (at level 100, p pattern, m at next level, right associativity) : py_scope.

(** An exception a constructor or a call may raise, as a result. *)
Definition unit_or (o : option exn) : result unit :=
  match o with
  | None => Ok tt
  | Some e => Raise e
  end.

(** [o is None]; an object of the classes met here is truthy, so this is
    also [not o]. *)
Definition is_None {A} (o : option A) : bool :=
  match o with
  | None => true
  | Some _ => false
  end.

(** A dict with string keys, in insertion order. *)
Definition dict (V : Type) : Type := list (pystr * V).

(** [d[k]]: the value, or [KeyError(k)], whose [str] is the key in quotes. *)
Fixpoint dict_item {V} (d : dict V) (k : pystr) : result V :=
  match d with
  | [] => Raise (Exn KeyError (u"'" ++ k ++ u"'"))
  | (k', v) :: d' => if PyStr.eqb k' k then Ok v else dict_item d' k
  end.

(** [d.get(k, default)] *)
Definition dict_get {V} (d : dict V) (k : pystr) (default : V) : V :=
  match dict_item d k with
  | Ok v => v
  | Raise _ => default
  end.

(* ===================================================================== *)
(** * utils.py *)
(* ===================================================================== *)

Module Utils.

(** [float(n)] for a count.  Exact below 2^53, so that [/] below is the
    correctly rounded quotient Python's [int / int] returns. *)
Definition float_of_nat (n : nat) : float :=
  PrimFloat.of_uint63 (Uint63.of_Z (Z.of_nat n)).

(** ['ऀ' <= char <= 'ॿ'] *)
Definition is_devanagari (char : N) : bool :=
  ((2304 <=? char) && (char <=? 2431))%N.

Section WithConfig.

Variable cfg : Config.AppConfig.
Variable env : Env.

(** [detect_language(text)] *)
Definition detect_language (text : pystr) : pystr :=
  let hindi_chars := List.length (filter is_devanagari text) in
  let total_chars := List.length (filter (isalpha env) text) in
  if Nat.eqb total_chars 0 then u"english"
  else
    let hindi_ratio :=
      PrimFloat.div (float_of_nat hindi_chars) (float_of_nat total_chars) in
    if PrimFloat.ltb (Config.hindi_threshold (Config.language cfg)) hindi_ratio
    then u"hindi"
    else u"english".

End WithConfig.

(** [validate_file_type(filename)] *)
Definition validate_file_type (filename : pystr) : bool :=
  let supported_extensions := [u".pdf"; u".txt"] in
  let file_extension := u"." ++ lower (last_field 46 filename) in
  existsb (PyStr.eqb file_extension) supported_extensions.

(** [get_language_messages()] *)
Definition get_language_messages : dict (dict pystr) :=
  [ (u"upload_docs",
     [ (u"hindi", u"दस्तावेज़ अपलोड करें");
       (u"english", u"Upload Documents") ]);
    (u"process_docs",
     [ (u"hindi", u"दस्तावेज़ प्रोसेस करें");
       (u"english", u"Process Documents") ]);
    (u"clear_all",
     [ (u"hindi", u"सब साफ़ करें");
       (u"english", u"Clear All") ]);
    (u"thinking",
     [ (u"hindi", u"सोच रहा हूँ...");
       (u"english", u"Thinking...") ]);
    (u"sources",
     [ (u"hindi", u"स्रोत");
       (u"english", u"Sources") ]);
    (u"no_docs_error",
     [ (u"hindi", u"कृपया पहले दस्तावेज़ अपलोड करके प्रोसेस करें!");
       (u"english", u"Please upload and process documents first!") ]);
    (u"detected_language",
     [ (u"hindi", u"पहचानी गई भाषा");
       (u"english", u"Detected Language") ]) ].

(** The lines of the two prompts; the second and third are indented by
    eight spaces in the sources, and the first ends with a space. *)
Definition hindi_prompt : pystr :=
  u"आप एक सहायक AI असिस्टेंट हैं। आपको हमेशा हिंदी में जवाब देना है। " ++ nl ++
  u"        यदि context दिया गया है तो उसके आधार पर जवाब दें। अगर आपको context में जवाब नहीं मिलता तो कहें कि "
    ++ quote ++ u"मुझे इस बारे में जानकारी नहीं है।" ++ quote ++ nl ++
  u"        स्पष्ट, संक्षिप्त और सही हिंदी में उत्तर दें।".

Definition english_prompt : pystr :=
  u"You are a helpful AI assistant. Always respond in English only. " ++ nl ++
  u"        If context is provided, base your answer on that context. If you don't know the answer from the context, say "
    ++ quote ++ u"I don't have information about this." ++ quote ++ nl ++
  u"        Provide clear, concise answers in proper English.".

(** [get_system_prompts()] *)
Definition get_system_prompts : dict pystr :=
  [ (u"hindi", hindi_prompt); (u"english", english_prompt) ].

(** The static methods of [ErrorHandler]. *)
Module ErrorHandler.

Definition handle_api_error (error : exn) (language : pystr) : pystr :=
  if PyStr.eqb language u"hindi"
  then u"API त्रुटि: " ++ exn_str error
  else u"API Error: " ++ exn_str error.

Definition handle_processing_error (error : exn) (language : pystr) : pystr :=
  if PyStr.eqb language u"hindi"
  then u"प्रसंस्करण त्रुटि: " ++ exn_str error
  else u"Processing Error: " ++ exn_str error.

Definition handle_connection_error (error : exn) (language : pystr) : pystr :=
  if PyStr.eqb language u"hindi"
  then u"कनेक्शन त्रुटि: " ++ exn_str error
  else u"Connection Error: " ++ exn_str error.

End ErrorHandler.

End Utils.

(* ===================================================================== *)
(** * groq_client.py *)
(* ===================================================================== *)

Module GroqClient.

(** The attributes [__init__] assigns from its arguments and the
    configuration.  [self.system_prompts] is [get_system_prompts()] in
    every client and is never assigned again. *)
Record t : Type := {
  api_key : pystr;
  model : pystr;
  base_url : pystr;
  timeout : Z;
  temperature : float;
  max_tokens : Z
}.

(** [x or y] for an optional string: [None] and [""] are falsy. *)
Definition or_default (x : option pystr) (y : pystr) : pystr :=
  match x with
  | None | Some [] => y
  | Some s => s
  end.

Definition system_prompts : dict pystr := Utils.get_system_prompts.

(** [GroqClient(api_key, model)] *)
Definition __init__ (cfg : Config.AppConfig) (api_key model : option pystr)
  : result t :=
  let self := {|
    api_key := or_default api_key (Config.groq_api_key (Config.api cfg));
    model := or_default model (Config.groq_model (Config.api cfg));
    base_url := Config.groq_base_url (Config.api cfg);
    timeout := Config.groq_timeout (Config.api cfg);
    temperature := Config.groq_temperature (Config.api cfg);
    max_tokens := Config.groq_max_tokens (Config.api cfg) |} in
  match GroqClient.api_key self with
  | [] => Raise (Exn ValueError u"Groq API key is required")
  | _ :: _ => Ok self
  end.

(** [_create_headers()] *)
Definition _create_headers (self : t) : dict pystr :=
  [ (u"Authorization", u"Bearer " ++ api_key self);
    (u"Content-Type", u"application/json") ].

(** [_create_prompt(question, context, language)].  The default of
    [dict.get] is evaluated before the call, so its lookup comes first. *)
Definition _create_prompt (self : t) (question context language : pystr)
  : result pystr :=
  match dict_item system_prompts u"english" with
  | Raise e => Raise e
  | Ok fallback =>
    let system_instruction := dict_get system_prompts language fallback in
    Ok (if PyStr.eqb language u"hindi" then
          match context with
          | _ :: _ =>
            system_instruction ++ nl ++ nl ++ u"संदर्भ (Context): " ++ context
              ++ nl ++ nl ++ u"प्रश्न: " ++ question
              ++ nl ++ nl ++ u"उत्तर (केवल हिंदी में):"
          | [] =>
            system_instruction ++ nl ++ nl ++ u"प्रश्न: " ++ question
              ++ nl ++ nl ++ u"उत्तर (केवल हिंदी में):"
          end
        else
          match context with
          | _ :: _ =>
            system_instruction ++ nl ++ nl ++ u"Context: " ++ context
              ++ nl ++ nl ++ u"Question: " ++ question
              ++ nl ++ nl ++ u"Answer (in English only):"
          | [] =>
            system_instruction ++ nl ++ nl ++ u"Question: " ++ question
              ++ nl ++ nl ++ u"Answer (in English only):"
          end)
  end.

(** The request [chat] posts: the URL, [_create_headers()],
    [_create_request_data(prompt)] (one message, of role [user]) and the
    timeout. *)
Definition _create_request (self : t) (prompt : pystr) : request := {|
  req_url := base_url self ++ u"/chat/completions";
  req_authorization := dict_get (_create_headers self) u"Authorization" [];
  req_content_type := dict_get (_create_headers self) u"Content-Type" [];
  req_model := model self;
  req_content := prompt;
  req_temperature := temperature self;
  req_max_tokens := max_tokens self;
  req_timeout := timeout self
|}.

Section WithEnv.

Variable env : Env.

(** The body of the [try] of [chat]. *)
Definition chat_body {S} (self : t) (prompt context language : pystr)
  : M S pystr :=
  (full_prompt <- of_result (_create_prompt self prompt context language) ;;
   let r := _create_request self full_prompt in
   response <- call (EvPost r) (fun n => requests_post env n r) ;;
   if (status_code response =? 200)%Z then
     of_result (json_content response)
   else
     let error_msg :=
       u"API Error " ++ of_Z (status_code response) ++ u": "
         ++ text response in
     ret (Utils.ErrorHandler.handle_api_error
            (Exn (OtherError u"Exception") error_msg) language))%py.

(** The [except] clauses of [chat], tried in the order of the sources. *)
Definition chat_except {S} (language : pystr) (e : exn) : M S pystr :=
  if is_Timeout e then
    let error := Exn (OtherError u"Exception") u"Request timed out" in
    ret (Utils.ErrorHandler.handle_connection_error error language)
  else if is_ConnectionError e then
    let error :=
      Exn (OtherError u"Exception") u"Failed to connect to Groq API" in
    ret (Utils.ErrorHandler.handle_connection_error error language)
  else
    ret (Utils.ErrorHandler.handle_api_error e language).

(** [chat(prompt, context, language)] *)
Definition chat {S} (self : t) (prompt context language : pystr)
  : M S pystr :=
  try_except (chat_body self prompt context language)
             (chat_except language).

(** [test_connection()] *)
Definition test_connection {S} (self : t) : M S (bool * pystr) :=
  try_except
    (test_response <- chat self u"Hello" [] u"english" ;;
     if contains u"Error" test_response
     then ret (false, test_response)
     else ret (true, u"Groq API connection successful"))%py
    (fun e => ret (false, u"Groq API connection failed: " ++ exn_str e)).

End WithEnv.

(** [get_model_info()]: the model, the base URL, the temperature and the
    token limit. *)
Definition get_model_info (self : t) : pystr * pystr * float * Z :=
  (model self, base_url self, temperature self, max_tokens self).

End GroqClient.

(* ===================================================================== *)
(** * document_processor.py *)
(* ===================================================================== *)

Module DocumentProcessor.

(** [self.supported_formats]; like [self.text_splitter], it is assigned in
    [__init__] only, from the configuration, so the processor has no state
    of its own. *)
Definition supported_formats : list pystr := [u".pdf"; u".txt"].

(** [_get_loader(file_path)] *)
Definition _get_loader (file_path : pystr) : option loader :=
  let file_extension := u"." ++ lower (last_field 46 file_path) in
  if PyStr.eqb file_extension u".pdf" then Some (PyPDFLoader file_path)
  else if PyStr.eqb file_extension u".txt" then Some (TextLoader file_path)
  else None.

Section WithConfig.

Variable cfg : Config.AppConfig.
Variable env : Env.

(** One turn of the loop of [load_documents]: the [try] and its [except],
    on the two lists built so far. *)
Definition load_one {S} (file_path : pystr)
  (acc : list Document * list pystr) : M S (list Document * list pystr) :=
  let '(documents, errors) := acc in
  try_except
    (match _get_loader file_path with
     | Some loader =>
       docs <- call (EvLoad loader) (fun n => load env n loader) ;;
       ret (documents ++ docs, errors)
     | None =>
       ret (documents, errors ++ [u"Unsupported file type: " ++ file_path])
     end)%py
    (fun e =>
       let error_msg :=
         u"Error loading " ++ file_path ++ u": " ++ exn_str e in
       ret (documents, errors ++ [error_msg])).

Fixpoint load_loop {S} (file_paths : list pystr)
  (acc : list Document * list pystr) : M S (list Document * list pystr) :=
  match file_paths with
  | [] => ret acc
  | file_path :: rest =>
    (acc' <- load_one file_path acc ;; load_loop rest acc')%py
  end.

(** [load_documents(file_paths)] *)
Definition load_documents {S} (file_paths : list pystr)
  : M S (list Document * list pystr) :=
  load_loop file_paths ([], []).

(** What a batch loads, file by file, when the first call is the [n]-th
    the world sees: a file with no loader gives one error; a file whose
    loader raises gives one error; any other file gives its documents.  The
    files are independent of each other but for the time of their call. *)
Fixpoint loaded (file_paths : list pystr) (n : nat)
  : list Document * list pystr :=
  match file_paths with
  | [] => ([], [])
  | file_path :: rest =>
    match _get_loader file_path with
    | None =>
      let '(documents, errors) := loaded rest n in
      (documents, (u"Unsupported file type: " ++ file_path) :: errors)
    | Some loader =>
      let '(documents, errors) := loaded rest (S n) in
      match load env n loader with
      | Ok docs => (docs ++ documents, errors)
      | Raise e =>
        (documents,
         (u"Error loading " ++ file_path ++ u": " ++ exn_str e) :: errors)
      end
    end
  end.

(** [split_documents(documents)]: the [except] clause prints and raises
    the exception again. *)
Definition split_documents {S} (documents : list Document)
  : M S (list Document) :=
  match documents with
  | [] => ret []
  | _ :: _ =>
    try_except
      (of_result
         (text_splitter env
            (Config.chunk_size (Config.vectorstore cfg))
            (Config.chunk_overlap (Config.vectorstore cfg))
            documents))
      (fun e => raise e)
  end.

(** [process_documents(file_paths)] *)
Definition process_documents {S} (file_paths : list pystr)
  : M S (bool * pystr * list Document) :=
  try_except
    ('(documents, load_errors) <- load_documents file_paths ;;
     match documents with
     | [] => ret (false, u"No documents loaded successfully", [])
     | _ :: _ =>
       splits <- split_documents documents ;;
       match splits with
       | [] => ret (false, u"No document chunks created", [])
       | _ :: _ =>
         let success_msg :=
           u"Successfully processed " ++ of_nat (List.length splits)
             ++ u" document chunks" in
         let success_msg :=
           match load_errors with
           | [] => success_msg
           | _ :: _ =>
             success_msg ++ u" (with "
               ++ of_nat (List.length load_errors) ++ u" errors)"
           end in
         ret (true, success_msg, splits)
       end
     end)%py
    (fun e =>
       ret (false, Utils.ErrorHandler.handle_processing_error e u"english",
            [])).

End WithConfig.

(** The calls a batch makes: one for each file that has a loader. *)
Definition load_events (file_paths : list pystr) : list event :=
  flat_map (fun p => match _get_loader p with
                     | Some loader => [EvLoad loader]
                     | None => []
                     end)
           file_paths.

Definition attempts (file_paths : list pystr) : nat :=
  List.length (load_events file_paths).

(** [get_document_stats(documents)]: chunks, characters, average size. *)
Definition get_document_stats (documents : list Document) : nat * nat * nat :=
  match documents with
  | [] => (0, 0, 0)
  | _ :: _ =>
    let total_chars :=
      list_sum (map (fun doc => List.length (page_content doc)) documents) in
    let avg_chunk_size := Nat.div total_chars (List.length documents) in
    (List.length documents, total_chars, avg_chunk_size)
  end.

(** [validate_file_format(filename)] *)
Definition validate_file_format (filename : pystr) : bool :=
  let file_extension := u"." ++ lower (last_field 46 filename) in
  existsb (PyStr.eqb file_extension) supported_formats.

End DocumentProcessor.

(* ===================================================================== *)
(** * vector_store.py *)
(* ===================================================================== *)

(** The two objects the manager holds: an [OllamaEmbeddings] and a
    [Chroma] opened on a directory with an embedding function. *)
Record OllamaEmbeddings : Type := {
  emb_model : pystr;
  emb_base_url : pystr
}.

Record Chroma : Type := {
  persist_directory : pystr;
  embedding_function : option OllamaEmbeddings
}.

Module VectorStoreManager.

Record t : Type := {
  embeddings : option OllamaEmbeddings;
  vectorstore : option Chroma;
  documents : list Document;
  is_initialized : bool
}.

(** [VectorStoreManager()] *)
Definition __init__ : t := {|
  embeddings := None;
  vectorstore := None;
  documents := [];
  is_initialized := false
|}.

Definition set_embeddings (v : option OllamaEmbeddings) : M t unit :=
  fun self => put {| embeddings := v;
                     vectorstore := vectorstore self;
                     documents := documents self;
                     is_initialized := is_initialized self |} self.

Definition set_vectorstore (v : option Chroma) : M t unit :=
  fun self => put {| embeddings := embeddings self;
                     vectorstore := v;
                     documents := documents self;
                     is_initialized := is_initialized self |} self.

Definition set_documents (v : list Document) : M t unit :=
  fun self => put {| embeddings := embeddings self;
                     vectorstore := vectorstore self;
                     documents := v;
                     is_initialized := is_initialized self |} self.

Definition set_is_initialized (v : bool) : M t unit :=
  fun self => put {| embeddings := embeddings self;
                     vectorstore := vectorstore self;
                     documents := documents self;
                     is_initialized := v |} self.

(** The dict [get_store_info] returns, key by key. *)
Record store_info : Type := {
  info_is_initialized : bool;
  info_document_count : nat;
  info_embedding_model : pystr;
  info_chunk_size : Z;
  info_chunk_overlap : Z;
  info_similarity_search_k : Z;
  info_chroma_directory : pystr
}.

(** The dict [health_check] returns, key by key; [last_error] is [None] or
    the text of an exception. *)
Record health : Type := {
  vector_store_initialized : bool;
  embeddings_available : bool;
  document_count : nat;
  last_error : option pystr;
  embeddings_working : bool
}.

(** [health_status['embeddings_working'] = v], and
    [health_status['last_error'] = v]. *)
Definition set_embeddings_working (v : bool) (h : health) : health :=
  {| vector_store_initialized := vector_store_initialized h;
     embeddings_available := embeddings_available h;
     document_count := document_count h;
     last_error := last_error h;
     embeddings_working := v |}.

Definition set_last_error (v : option pystr) (h : health) : health :=
  {| vector_store_initialized := vector_store_initialized h;
     embeddings_available := embeddings_available h;
     document_count := document_count h;
     last_error := v;
     embeddings_working := embeddings_working h |}.

(** [None.attr]: the exception of a method call on [None]. *)
Definition none_has_no (attr : pystr) : exn :=
  Exn AttributeError
      (u"'NoneType' object has no attribute '" ++ attr ++ u"'").

Section WithConfig.

Variable cfg : Config.AppConfig.
Variable env : Env.

(** [Chroma(persist_directory=config.vectorstore.chroma_dir,
    embedding_function=self.embeddings)]: the constructor opens the
    collection persisted under the directory, whatever it holds, and creates
    it when there is none; it is the call [initialize] makes at every start
    of the process, where the index is the one that persists across
    restarts. *)
Definition open_Chroma : M t Chroma :=
  (self <- get ;;
   let dir := Config.chroma_dir (Config.vectorstore cfg) in
   call (EvChroma dir) (fun n => unit_or (new_Chroma env n dir)) ;;;
   ret {| persist_directory := dir;
          embedding_function := embeddings self |})%py.

(** [_test_embeddings()] *)
Definition _test_embeddings : M t (bool * pystr) :=
  try_except
    (self <- get ;;
     match embeddings self with
     | None => raise (none_has_no u"embed_query")
     | Some _ =>
       test_embed <-
         call (EvEmbedQuery u"test") (fun n => embed_query env n u"test") ;;
       match test_embed with
       | [] =>
         ret (false,
              u"Ollama embeddings failed - make sure Ollama is running")
       | _ :: _ => ret (true, u"Embeddings test successful")
       end
     end)%py
    (fun e =>
       ret (false,
            u"Ollama Error: " ++ exn_str e
              ++ u". Make sure Ollama is running with 'ollama serve'")).

(** [initialize()] *)
Definition initialize : M t (bool * pystr) :=
  try_except
    (let m := Config.model (Config.ollama cfg) in
     let b := Config.base_url (Config.ollama cfg) in
     call (EvOllamaEmbeddings m b)
          (fun n => unit_or (new_OllamaEmbeddings env n m b)) ;;;
     set_embeddings (Some {| emb_model := m; emb_base_url := b |}) ;;;
     '(test_success, test_message) <- _test_embeddings ;;
     if negb test_success then ret (false, test_message)
     else
       store <- open_Chroma ;;
       set_vectorstore (Some store) ;;;
       set_is_initialized true ;;;
       ret (true, u"Vector store initialized successfully"))%py
    (fun e =>
       ret (false, u"Vector store initialization failed: " ++ exn_str e)).

(** [self.vectorstore.add_documents(documents)]: the chunks are embedded
    and appended to the persisted collection, unless the call fails. *)
Definition store_add (docs : list Document) : M t unit :=
  (self <- get ;;
   match vectorstore self with
   | None => raise (none_has_no u"add_documents")
   | Some _ =>
     call (EvAddDocuments docs)
          (fun n => unit_or (store_add_documents env n docs)) ;;;
     stored <- read_store ;;
     write_store (stored ++ docs)
   end)%py.

(** [add_documents(documents)] *)
Definition add_documents (docs : list Document) : M t (bool * pystr) :=
  (self <- get ;;
   if negb (is_initialized self) then
     ret (false, u"Vector store not initialized")
   else
     match docs with
     | [] => ret (false, u"No documents provided")
     | _ :: _ =>
       try_except
         (store_add docs ;;;
          self <- get ;;
          set_documents (documents self ++ docs) ;;;
          let success_msg :=
            u"Added " ++ of_nat (List.length docs)
              ++ u" document chunks to vector store" in
          ret (true, success_msg))
         (fun e =>
            ret (false,
                 Utils.ErrorHandler.handle_processing_error e u"english"))
     end)%py.

(** [k or config.vectorstore.similarity_search_k] *)
Definition k_or_default (k : option Z) : Z :=
  match k with
  | None | Some 0%Z => Config.similarity_search_k (Config.vectorstore cfg)
  | Some k' => k'
  end.

(** [similarity_search(query, k)] *)
Definition similarity_search (query : pystr) (k : option Z)
  : M t (list Document) :=
  (self <- get ;;
   if negb (is_initialized self) || is_None (vectorstore self) then ret []
   else
     try_except
       (let k := k_or_default k in
        stored <- read_store ;;
        relevant_docs <-
          call (EvGetRelevantDocuments query k)
               (fun n => get_relevant_documents env n stored query k) ;;
        ret relevant_docs)
       (fun e => ret []))%py.

(** [clear_documents()] *)
Definition clear_documents : M t (bool * pystr) :=
  try_except
    (set_documents [] ;;;
     self <- get ;;
     (if is_initialized self then
        store <- open_Chroma ;;
        set_vectorstore (Some store)
      else ret tt) ;;;
     ret (true, u"Documents cleared successfully"))%py
    (fun e => ret (false, u"Error clearing documents: " ++ exn_str e)).

(** [get_store_info()] *)
Definition get_store_info (self : t) : store_info := {|
  info_is_initialized := is_initialized self;
  info_document_count := List.length (documents self);
  info_embedding_model := Config.model (Config.ollama cfg);
  info_chunk_size := Config.chunk_size (Config.vectorstore cfg);
  info_chunk_overlap := Config.chunk_overlap (Config.vectorstore cfg);
  info_similarity_search_k :=
    Config.similarity_search_k (Config.vectorstore cfg);
  info_chroma_directory := Config.chroma_dir (Config.vectorstore cfg)
|}.

(** [health_check()]: the key [embeddings_working] is set on every path;
    [bool(test_embed)] is false for the empty list only. *)
Definition health_check : M t health :=
  (self <- get ;;
   let health_status := {|
     vector_store_initialized := is_initialized self;
     embeddings_available := negb (is_None (embeddings self));
     document_count := List.length (documents self);
     last_error := None;
     embeddings_working := false |} in
   match embeddings self with
   | Some _ =>
     try_except
       (test_embed <-
          call (EvEmbedQuery u"health check")
               (fun n => embed_query env n u"health check") ;;
        ret (set_embeddings_working
               (match test_embed with [] => false | _ :: _ => true end)
               health_status))
       (fun e =>
          ret (set_last_error (Some (exn_str e))
                 (set_embeddings_working false health_status)))
   | None => ret (set_embeddings_working false health_status)
   end)%py.

End WithConfig.

(** [get_context_from_docs(documents)]: every element is a [Document], so
    every one has a [page_content]. *)
Definition get_context_from_docs (docs : list Document) : pystr :=
  match docs with
  | [] => []
  | _ :: _ =>
    let context_parts := map page_content docs in
    join (nl ++ nl) context_parts
  end.

(** [get_document_count()] *)
Definition get_document_count (self : t) : nat :=
  List.length (documents self).

(** A manager and a world that fit: an initialized manager holds its
    embeddings and its index, and the in-memory list is the end of what the
    index persists (the chunks added since the list was last emptied). *)
Definition consistent (self : t) (w : World) : Prop :=
  (is_initialized self = true ->
   embeddings self <> None /\ vectorstore self <> None) /\
  exists older, chroma_store w = older ++ documents self.

(** What a method run on a manager that fits its world keeps: it does not
    raise, the manager and the world still fit, the flag is not lowered,
    and the index still persists what it did, maybe with more after it. *)
Definition keeps {A} (m : M t A) (self : t) (w : World) : Prop :=
  exists r self' w',
    m self w = (Ok r, self', w') /\
    consistent self' w' /\
    (is_initialized self = true -> is_initialized self' = true) /\
    (exists added, chroma_store w' = chroma_store w ++ added).

End VectorStoreManager.

(* ===================================================================== *)
(** * rag_system.py *)
(* ===================================================================== *)

Module RAGSystem.

(** The attributes that change after [__init__].  [self.messages] is
    [get_language_messages()] and [self.document_processor] a
    [DocumentProcessor()] in every system; neither is assigned again. *)
Record t : Type := {
  groq_client : option GroqClient.t;
  vector_store : VectorStoreManager.t;
  is_initialized : bool
}.

Definition messages : dict (dict pystr) := Utils.get_language_messages.

(** [RAGSystem()] *)
Definition __init__ : t := {|
  groq_client := None;
  vector_store := VectorStoreManager.__init__;
  is_initialized := false
|}.

Definition set_groq_client (v : option GroqClient.t) : M t unit :=
  fun self => put {| groq_client := v;
                     vector_store := vector_store self;
                     is_initialized := is_initialized self |} self.

Definition with_vector_store (v : VectorStoreManager.t) (self : t) : t :=
  {| groq_client := groq_client self;
     vector_store := v;
     is_initialized := is_initialized self |}.

Definition set_is_initialized (v : bool) : M t unit :=
  fun self => put {| groq_client := groq_client self;
                     vector_store := vector_store self;
                     is_initialized := v |} self.

(** The dict [get_system_status] returns, key by key; the key
    [health_check] is there for an initialized system only. *)
Record system_status : Type := {
  status_is_initialized : bool;
  status_document_count : nat;
  status_groq_model : option (pystr * pystr * float * Z);
  status_vector_store_info : VectorStoreManager.store_info;
  status_supported_formats : list pystr;
  status_health_check : option VectorStoreManager.health
}.

(** A method of [self.vector_store]. *)
Definition on_vector_store {A} (m : M VectorStoreManager.t A) : M t A :=
  zoom vector_store with_vector_store m.

Section WithConfig.

Variable cfg : Config.AppConfig.
Variable env : Env.

(** [initialize(api_key)] *)
Definition initialize (api_key : option pystr) : M t (bool * pystr) :=
  try_except
    (client <- of_result (GroqClient.__init__ cfg api_key None) ;;
     set_groq_client (Some client) ;;;
     '(groq_success, groq_message) <- GroqClient.test_connection env client ;;
     if negb groq_success then
       ret (false, u"Groq initialization failed: " ++ groq_message)
     else
       '(vs_success, vs_message) <-
         on_vector_store (VectorStoreManager.initialize cfg env) ;;
       if negb vs_success then
         ret (false, u"Vector store initialization failed: " ++ vs_message)
       else
         set_is_initialized true ;;;
         ret (true, u"RAG system initialized successfully!"))%py
    (fun e =>
       let error_msg := u"RAG system initialization error: " ++ exn_str e in
       ret (false, error_msg)).

(** [process_documents(file_paths)] *)
Definition process_documents (file_paths : list pystr) : M t (bool * pystr) :=
  (self <- get ;;
   if negb (is_initialized self) then ret (false, u"RAG system not initialized")
   else
     try_except
       ('(success, message, documents) <-
          DocumentProcessor.process_documents cfg env file_paths ;;
        if negb success then ret (false, message)
        else
          match documents with
          | [] => ret (false, u"No documents were processed")
          | _ :: _ =>
            '(vs_success, vs_message) <-
              on_vector_store
                (VectorStoreManager.add_documents env documents) ;;
            if negb vs_success then
              ret (false, u"Vector store error: " ++ vs_message)
            else
              let final_message := message ++ u". " ++ vs_message in
              ret (true, final_message)
          end)
       (fun e =>
          let error_msg :=
            Utils.ErrorHandler.handle_processing_error e u"english" in
          ret (false, error_msg)))%py.

(** The body of the [try] of [query], with its three calls bound late, as
    Python binds methods: [search] is [self.vector_store.similarity_search],
    [context_of] is [self.vector_store.get_context_from_docs] and [chat] is
    [self.groq_client.chat]. *)
Definition query_try
  (search : pystr -> M t (list Document))
  (context_of : list Document -> M t pystr)
  (chat : pystr -> pystr -> pystr -> M t pystr)
  (question detected_language : pystr) : M t (pystr * list Document) :=
  (relevant_docs <- search question ;;
   context <- context_of relevant_docs ;;
   answer <- chat question context detected_language ;;
   ret (answer, relevant_docs))%py.

(** [query(question)] over the same three calls. *)
Definition query_with
  (search : pystr -> M t (list Document))
  (context_of : list Document -> M t pystr)
  (chat : pystr -> pystr -> pystr -> M t pystr)
  (question : pystr) : M t (pystr * list Document) :=
  (let detected_language := Utils.detect_language cfg env question in
   self <- get ;;
   if Nat.eqb (VectorStoreManager.get_document_count (vector_store self)) 0
   then
     by_language <- of_result (dict_item messages u"no_docs_error") ;;
     no_docs_msg <- of_result (dict_item by_language detected_language) ;;
     ret (no_docs_msg, [])
   else if negb (is_initialized self) then
     if PyStr.eqb detected_language u"hindi"
     then ret (u"सिस्टम तैयार नहीं है!", [])
     else ret (u"System not initialized!", [])
   else
     try_except
       (query_try search context_of chat question detected_language)
       (fun e =>
          let error_msg :=
            Utils.ErrorHandler.handle_api_error e detected_language in
          ret (error_msg, [])))%py.

(** [self.groq_client.chat(...)]: the attribute is [None] until
    [initialize] assigns it. *)
Definition groq_client_chat (question context language : pystr)
  : M t pystr :=
  (self <- get ;;
   match groq_client self with
   | None => raise (VectorStoreManager.none_has_no u"chat")
   | Some client => GroqClient.chat env client question context language
   end)%py.

(** [query(question)] *)
Definition query (question : pystr) : M t (pystr * list Document) :=
  query_with
    (fun q => on_vector_store
                (VectorStoreManager.similarity_search cfg env q None))
    (fun docs => ret (VectorStoreManager.get_context_from_docs docs))
    groq_client_chat
    question.

(** [clear_documents()] *)
Definition clear_documents : M t (bool * pystr) :=
  try_except
    ('(success, message) <-
       on_vector_store (VectorStoreManager.clear_documents cfg env) ;;
     ret (success, message))%py
    (fun e => ret (false, u"Error clearing documents: " ++ exn_str e)).

(** [get_system_status()] *)
Definition get_system_status : M t system_status :=
  (self <- get ;;
   let groq_model :=
     match groq_client self with
     | Some client => Some (GroqClient.get_model_info client)
     | None => None
     end in
   health <-
     (if is_initialized self then
        h <- on_vector_store (VectorStoreManager.health_check env) ;;
        ret (Some h)
      else ret None) ;;
   ret {| status_is_initialized := is_initialized self;
          status_document_count :=
            VectorStoreManager.get_document_count (vector_store self);
          status_groq_model := groq_model;
          status_vector_store_info :=
            VectorStoreManager.get_store_info cfg (vector_store self);
          status_supported_formats := DocumentProcessor.supported_formats;
          status_health_check := health |})%py.

End WithConfig.

(** [get_document_stats()] *)
Definition get_document_stats (self : t) : nat * nat * nat :=
  DocumentProcessor.get_document_stats
    (VectorStoreManager.documents (vector_store self)).

(** [validate_file(filename)] *)
Definition validate_file (filename : pystr) : bool :=
  DocumentProcessor.validate_file_format filename.

(** A system and a world that fit: a system marked initialized has its
    chat client and an initialized vector store, and the vector store fits
    the world. *)
Definition consistent (self : t) (w : World) : Prop :=
  (is_initialized self = true ->
   groq_client self <> None /\
   VectorStoreManager.is_initialized (vector_store self) = true) /\
  VectorStoreManager.consistent (vector_store self) w.

(** A later system and world: the two flags are not lowered, the chat
    client, once there, stays, and the index still persists what it did,
    maybe with more after it. *)
Definition follows (self : t) (w : World) (self' : t) (w' : World) : Prop :=
  (is_initialized self = true -> is_initialized self' = true) /\
  (VectorStoreManager.is_initialized (vector_store self) = true ->
   VectorStoreManager.is_initialized (vector_store self') = true) /\
  (groq_client self <> None -> groq_client self' <> None) /\
  (exists added, chroma_store w' = chroma_store w ++ added).

(** What a method of the system keeps: it does not raise, the system and
    the world still fit, and they follow those it started from. *)
Definition keeps {A} (m : M t A) (self : t) (w : World) : Prop :=
  exists r self' w',
    m self w = (Ok r, self', w') /\
    consistent self' w' /\
    follows self w self' w'.

End RAGSystem.

(* ===================================================================== *)
(** * A session: the calls of a caller, one after the other *)
(* ===================================================================== *)

Module Session.

(** The methods a caller of [RAGSystem] uses, with their arguments. *)
Inductive op : Type :=
| Initialize (api_key : option pystr)
| ProcessDocuments (file_paths : list pystr)
| Query (question : pystr)
| ClearDocuments
| GetSystemStatus.

Section WithConfig.

Variable cfg : Config.AppConfig.
Variable env : Env.

(** One call: what is returned is dropped, the system and the world go
    on. *)
Definition call_op (o : op) (self : RAGSystem.t) (w : World)
  : RAGSystem.t * World :=
  match o with
  | Initialize api_key =>
    let '(_, self', w') := RAGSystem.initialize cfg env api_key self w in
    (self', w')
  | ProcessDocuments file_paths =>
    let '(_, self', w') :=
      RAGSystem.process_documents cfg env file_paths self w in
    (self', w')
  | Query question =>
    let '(_, self', w') := RAGSystem.query cfg env question self w in
    (self', w')
  | ClearDocuments =>
    let '(_, self', w') := RAGSystem.clear_documents cfg env self w in
    (self', w')
  | GetSystemStatus =>
    let '(_, self', w') := RAGSystem.get_system_status cfg env self w in
    (self', w')
  end.

(** A sequence of calls, first to last. *)
Fixpoint calls (ops : list op) (self : RAGSystem.t) (w : World)
  : RAGSystem.t * World :=
  match ops with
  | [] => (self, w)
  | o :: rest =>
    let '(self', w') := call_op o self w in
    calls rest self' w'
  end.

End WithConfig.

End Session.

(* ===================================================================== *)
(** * The chunking rule of the specification *)
(* ===================================================================== *)

Module Chunking.

(** The windows of [size] characters that start every [size - overlap]
    characters, the last one holding what is left; [fuel] bounds the number
    of windows. *)
Fixpoint windows (fuel size overlap : nat) (s : pystr) : list pystr :=
  match fuel with
  | O => []
  | S fuel' =>
    if Nat.leb (List.length s) size then [s]
    else firstn size s :: windows fuel' size overlap (skipn (size - overlap) s)
  end.

(** Modelled from the spec: the text splitter itself is missing from the
    sources (the repository builds a [RecursiveCharacterTextSplitter] of
    its [langchain] dependency in [DocumentProcessor.__init__] and calls it
    in [split_documents]).  This is the sliding-window rule the
    specification states for a chunk: a substring of the document of at most
    [chunk_size] characters that shares [chunk_overlap] characters with its
    neighbour; an empty text has no chunk. *)
Definition sliding_window (chunk_size chunk_overlap : nat) (s : pystr)
  : list pystr :=
  match s with
  | [] => []
  | _ :: _ => windows (List.length s) chunk_size chunk_overlap s
  end.

(** The chunks of one document carry its provenance. *)
Definition split_document (chunk_size chunk_overlap : nat) (d : Document)
  : list Document :=
  map (fun c => {| page_content := c; source := source d |})
      (sliding_window chunk_size chunk_overlap (page_content d)).

Definition split_documents (chunk_size chunk_overlap : nat)
  (docs : list Document) : list Document :=
  flat_map (split_document chunk_size chunk_overlap) docs.

(** The text the chunks stand for: the first chunk, then every later chunk
    without the [overlap] characters it repeats. *)
Definition rebuild (overlap : nat) (chunks : list pystr) : pystr :=
  match chunks with
  | [] => []
  | c :: rest => c ++ List.concat (map (skipn overlap) rest)
  end.

(** The last [n] characters of a chunk. *)
Definition last_chars (n : nat) (c : pystr) : pystr :=
  skipn (List.length c - n) c.

End Chunking.

(* ===================================================================== *)
(** * Concrete surroundings, for examples *)
(* ===================================================================== *)

Module Sample.

(** [str.isalpha] on the letters of the examples: A-Z, a-z, and the
    letters of the Devanagari block (its signs, digits and punctuation are
    not alphabetic). *)
Definition letters (c : N) : bool :=
  (((65 <=? c) && (c <=? 90)) || ((97 <=? c) && (c <=? 122))
   || ((2308 <=? c) && (c <=? 2361)) || (c =? 2365) || (c =? 2384)
   || ((2392 <=? c) && (c <=? 2401)) || ((2417 <=? c) && (c <=? 2431)))%N.

Definition cfg : Config.AppConfig := Config.defaults u"gsk-sample-key".

(** A file system with one broken file: every other path loads as one
    document holding its own name. *)
Definition files (n : nat) (l : loader) : result (list Document) :=
  match l with
  | PyPDFLoader p => Ok [ {| page_content := u"pdf text of " ++ p;
                             source := p |} ]
  | TextLoader p =>
    if PyStr.eqb p u"broken.txt"
    then Raise (Exn (OtherError u"RuntimeError") (u"Error loading " ++ p))
    else Ok [ {| page_content := u"text of " ++ p; source := p |} ]
  end.

(** An index that answers with its first [k] chunks. *)
Definition first_k (n : nat) (stored : list Document)
  (query : pystr) (k : Z) : result (list Document) :=
  Ok (firstn (Z.to_nat k) stored).

(** The splitter of the specification. *)
Definition splitter (size overlap : Z) (docs : list Document)
  : result (list Document) :=
  Ok (Chunking.split_documents (Z.to_nat size) (Z.to_nat overlap) docs).

(** Surroundings where every service answers, the HTTP endpoint with
    [post] and the embedding service with [embed]. *)
Definition env_with (post : result response) (embed : result (list float))
  : Env := {|
  isalpha := letters;
  requests_post := fun _ _ => post;
  new_OllamaEmbeddings := fun _ _ _ => None;
  embed_query := fun _ _ => embed;
  new_Chroma := fun _ _ => None;
  store_add_documents := fun _ _ => None;
  get_relevant_documents := first_k;
  load := files;
  text_splitter := splitter
|}.

Definition answer_200 : response := {|
  status_code := 200;
  text := u"{...}";
  json_content := Ok u"Hello! How can I help?"
|}.

Definition answer_500 : response := {|
  status_code := 500;
  text := u"internal";
  json_content := Raise (Exn (OtherError u"JSONDecodeError") u"Expecting value")
|}.

Definition embedding : list float := [1%float; 0%float].

(** Everything works. *)
Definition env : Env := env_with (Ok answer_200) (Ok embedding).

(** The chat backend answers 500. *)
Definition env_500 : Env := env_with (Ok answer_500) (Ok embedding).

(** The chat backend cannot be reached. *)
Definition env_refused : Env :=
  env_with (Raise (Exn ConnectionError u"Connection refused")) (Ok embedding).

(** The chat backend does not answer in time. *)
Definition env_timeout : Env :=
  env_with (Raise (Exn ReadTimeout u"Read timed out.")) (Ok embedding).

(** The embedding backend is down. *)
Definition env_no_ollama : Env :=
  env_with (Ok answer_200)
           (Raise (Exn ConnectionError u"Connection refused")).

(** The index cannot be searched. *)
Definition env_search_fails : Env := {|
  isalpha := letters;
  requests_post := fun _ _ => Ok answer_200;
  new_OllamaEmbeddings := fun _ _ _ => None;
  embed_query := fun _ _ => Ok embedding;
  new_Chroma := fun _ _ => None;
  store_add_documents := fun _ _ => None;
  get_relevant_documents :=
    fun _ _ _ _ =>
      Raise (Exn ConnectionError u"embedding service unreachable");
  load := files;
  text_splitter := splitter
|}.

(** The client [GroqClient()] builds from the sample configuration. *)
Definition client : GroqClient.t := {|
  GroqClient.api_key := u"gsk-sample-key";
  GroqClient.model := u"llama-3.3-70b-versatile";
  GroqClient.base_url := u"https://api.groq.com/openai/v1";
  GroqClient.timeout := 30;
  GroqClient.temperature := 0x1.999999999999ap-4%float;
  GroqClient.max_tokens := 1000
|}.

(** An empty world. *)
Definition world : World := {| chroma_store := []; trace := [] |}.

Definition doc (s : pystr) : Document :=
  {| page_content := s; source := u"notes.txt" |}.

(** A manager is initialized, one chunk is added, the documents are
    cleared, and a search is made: the outcome of [clear_documents], the
    document count after it, and what the search finds. *)
Definition clear_then_search
  : M VectorStoreManager.t (bool * pystr * nat * list Document) :=
  (VectorStoreManager.initialize cfg env ;;;
   VectorStoreManager.add_documents env [doc u"the secret token"] ;;;
   cleared <- VectorStoreManager.clear_documents cfg env ;;
   self <- get ;;
   found <- VectorStoreManager.similarity_search cfg env u"anything" None ;;
   ret (cleared, VectorStoreManager.get_document_count self, found))%py.

(** A manager is initialized, one chunk is added, and a search is made. *)
Definition add_then_search (e : Env)
  : M VectorStoreManager.t (list Document) :=
  (VectorStoreManager.initialize cfg e ;;;
   VectorStoreManager.add_documents e [doc u"the secret token"] ;;;
   VectorStoreManager.similarity_search cfg e u"secret" None)%py.

(** A system that holds a chunk and says it is initialized, with no chat
    client and a vector store that was never opened. *)
Definition half_built : RAGSystem.t := {|
  RAGSystem.groq_client := None;
  RAGSystem.vector_store := {|
    VectorStoreManager.embeddings := None;
    VectorStoreManager.vectorstore := None;
    VectorStoreManager.documents := [doc u"a chunk"];
    VectorStoreManager.is_initialized := false |};
  RAGSystem.is_initialized := true
|}.

(** The same system before [initialize]. *)
Definition loaded_not_ready : RAGSystem.t := {|
  RAGSystem.groq_client := None;
  RAGSystem.vector_store := RAGSystem.vector_store half_built;
  RAGSystem.is_initialized := false
|}.

(** A manager once [initialize] and [add_documents] succeeded, and the
    system that holds it; the world where its chunk is persisted. *)
Definition ready_manager : VectorStoreManager.t := {|
  VectorStoreManager.embeddings :=
    Some {| emb_model := u"nomic-embed-text";
            emb_base_url := u"http://localhost:11434" |};
  VectorStoreManager.vectorstore :=
    Some {| persist_directory := u"./chroma_db";
            embedding_function :=
              Some {| emb_model := u"nomic-embed-text";
                      emb_base_url := u"http://localhost:11434" |} |};
  VectorStoreManager.documents := [doc u"a chunk"];
  VectorStoreManager.is_initialized := true
|}.

Definition ready_system : RAGSystem.t := {|
  RAGSystem.groq_client := Some client;
  RAGSystem.vector_store := ready_manager;
  RAGSystem.is_initialized := true
|}.

Definition ready_world : World :=
  {| chroma_store := [doc u"a chunk"]; trace := [] |}.

End Sample.

(* ===================================================================== *)
(** * Proof steps *)
(* ===================================================================== *)

(** One step of a method run on an explicit object and world. *)
Ltac step :=
  unfold try_except, bind, ret, raise, get, put, zoom, of_result, call,
    read_store, write_store, unit_or in *;
  cbn [fst snd] in *.

(** All the steps up to the next answer of the outside. *)
Ltac run := repeat (progress (step; cbn)).

(** The end of a run: the outcome is read off, and what is said of it is
    split into its parts. *)
Ltac settle :=
  do 3 eexists; (split; [reflexivity|]); unfold logged; cbn;
  repeat split; eauto; try discriminate.

(* ===================================================================== *)
(** * Facts about strings *)
(* ===================================================================== *)

Lemma eqb_refl (a : pystr) : PyStr.eqb a a = true.
Proof.
  induction a as [|x a IH]; simpl; [reflexivity|].
  now rewrite N.eqb_refl, IH.
Qed.

Lemma eqb_eq (a b : pystr) : PyStr.eqb a b = true <-> a = b.
Proof.
  split.
  - revert b; induction a as [|x a IH]; intros [|y b]; simpl;
      try discriminate; [reflexivity|].
    intros H. apply andb_true_iff in H as [Hx Hab].
    apply N.eqb_eq in Hx. subst y. f_equal. now apply IH.
  - intros ->. apply eqb_refl.
Qed.

Lemma eqb_neq (a b : pystr) : PyStr.eqb a b = false <-> a <> b.
Proof.
  rewrite <- eqb_eq. destruct (PyStr.eqb a b); split; intro H;
    try discriminate; try reflexivity; now destruct H.
Qed.

Lemma starts_with_app (p s : pystr) : starts_with p (p ++ s) = true.
Proof.
  induction p as [|x p IH]; simpl; [reflexivity|].
  now rewrite N.eqb_refl, IH.
Qed.

Lemma starts_with_split (p s : pystr) :
  starts_with p s = true -> exists post, s = p ++ post.
Proof.
  revert s; induction p as [|x p IH]; intros s H.
  - now exists s.
  - destruct s as [|y s]; simpl in H; [discriminate|].
    apply andb_true_iff in H as [Hx Hp].
    apply N.eqb_eq in Hx. subst y.
    destruct (IH _ Hp) as [post ->]. now exists post.
Qed.

Lemma contains_unfold (needle hay : pystr) :
  contains needle hay =
  starts_with needle hay ||
  match hay with
  | [] => false
  | _ :: hay' => contains needle hay'
  end.
Proof. destruct hay; reflexivity. Qed.

(** The test [needle in hay] decides [Contains]. *)
Lemma contains_iff (needle hay : pystr) :
  contains needle hay = true <-> Contains needle hay.
Proof.
  split.
  - induction hay as [|c hay IH]; simpl; intros H.
    + rewrite orb_false_r in H.
      apply starts_with_split in H as [post ->]. now exists [], post.
    + apply orb_true_iff in H as [H|H].
      * apply starts_with_split in H as [post ->]. now exists [], post.
      * destruct (IH H) as (pre & post & ->). now exists (c :: pre), post.
  - intros (pre & post & ->).
    induction pre as [|c pre IH]; simpl.
    + rewrite contains_unfold, starts_with_app. reflexivity.
    + rewrite IH. apply orb_true_r.
Qed.

Lemma Contains_here (needle post : pystr) : Contains needle (needle ++ post).
Proof. now exists [], post. Qed.

Lemma Contains_after (pre needle hay : pystr) :
  Contains needle hay -> Contains needle (pre ++ hay).
Proof.
  intros (p & q & ->). exists (pre ++ p), q. now rewrite <- app_assoc.
Qed.

Lemma Contains_before (needle hay post : pystr) :
  Contains needle hay -> Contains needle (hay ++ post).
Proof.
  intros (p & q & ->). exists p, (q ++ post). now rewrite <- !app_assoc.
Qed.

(** A literal is decoded character by character, whatever the number of
    bytes of each: one, two, three and four here. *)
Example lit_decodes : u"aé€😀" = [97; 233; 8364; 128512]%N.
Proof. vm_compute. reflexivity. Qed.

Example lit_devanagari : u"हिंदी" = [2361; 2367; 2306; 2342; 2368]%N.
Proof. vm_compute. reflexivity. Qed.

(** [last_field] is [s.split(sep)[-1]]: the string itself when it has no
    separator, what follows its last separator otherwise; the field holds
    no separator. *)
Lemma last_field_spec (sep : N) (s : pystr) :
  (existsb (N.eqb sep) s = false -> last_field sep s = s) /\
  (existsb (N.eqb sep) s = true ->
   exists pre, s = pre ++ sep :: last_field sep s) /\
  existsb (N.eqb sep) (last_field sep s) = false.
Proof.
  induction s as [|c s (IHnone & IHsome & IHfree)]; cbn [last_field existsb].
  - repeat split; try reflexivity. discriminate.
  - destruct (existsb (N.eqb sep) s) eqn:Hs.
    + rewrite orb_true_r. repeat split; try discriminate; try assumption.
      intros _. destruct (IHsome eq_refl) as [pre Hpre].
      exists (c :: pre). cbn. now rewrite <- Hpre.
    + rewrite orb_false_r, (N.eqb_sym c sep).
      destruct (N.eqb sep c) eqn:Hc.
      * apply N.eqb_eq in Hc. subst c.
        repeat split; try discriminate; try assumption.
        intros _. now exists [].
      * repeat split; try discriminate; try reflexivity.
        cbn [existsb]. now rewrite Hc, Hs.
Qed.

(** The whitelist of [validate_file_format] and the dispatch of
    [_get_loader] agree. *)
Lemma validate_matches_loader (filename : pystr) :
  DocumentProcessor.validate_file_format filename
  = negb (is_None (DocumentProcessor._get_loader filename)).
Proof.
  unfold DocumentProcessor.validate_file_format,
    DocumentProcessor._get_loader, DocumentProcessor.supported_formats.
  cbn [existsb].
  destruct (PyStr.eqb _ u".pdf"); [reflexivity|].
  destruct (PyStr.eqb _ u".txt"); reflexivity.
Qed.

(* ===================================================================== *)
(** * Language detection *)
(* ===================================================================== *)

(** On binary64 numbers, [a == b] excludes [b < a]. *)
Lemma SFeqb_not_SFltb (a b : SpecFloat.spec_float) :
  SpecFloat.SFeqb a b = true -> SpecFloat.SFltb b a = false.
Proof.
  unfold SpecFloat.SFeqb, SpecFloat.SFltb.
  destruct a as [sa|sa| |sa ma ea], b as [sb|sb| |sb mb eb]; simpl;
    try discriminate; try reflexivity;
    try (destruct sa, sb; simpl; intros; try discriminate; reflexivity);
    try (destruct sa; simpl; intros; try discriminate; reflexivity);
    try (destruct sb; simpl; intros; try discriminate; reflexivity).
  destruct sa, sb; simpl; try discriminate;
    rewrite (Z.compare_antisym ea eb);
    destruct (Z.compare ea eb) eqn:Ee; simpl; try discriminate;
    destruct (Pos.compare_cont Eq ma mb) eqn:Em; simpl; try discriminate;
    apply Pos.compare_eq in Em; subst mb;
    intros _; change (Pos.compare_cont Eq ma ma) with (Pos.compare ma ma);
    now rewrite Pos.compare_refl.
Qed.

Lemma float_eqb_not_ltb (a b : float) :
  PrimFloat.eqb a b = true -> PrimFloat.ltb b a = false.
Proof.
  rewrite FloatAxioms.eqb_spec, FloatAxioms.ltb_spec.
  apply SFeqb_not_SFltb.
Qed.

Lemma hindi_is_not_english : u"hindi" <> u"english".
Proof. discriminate. Qed.

(** [detect_language] answers one of the two language names. *)
Lemma detect_language_range (cfg : Config.AppConfig) (env : Env)
  (text : pystr) :
  Utils.detect_language cfg env text = u"hindi" \/
  Utils.detect_language cfg env text = u"english".
Proof.
  unfold Utils.detect_language.
  destruct (Nat.eqb _ 0); [now right|].
  destruct (PrimFloat.ltb _ _); [now left | now right].
Qed.

(** C5. [detect_language] is a function of the text (and of the configured
    threshold) alone, defined on every text: it answers ["hindi"] or
    ["english"]; a text with no alphabetic character, the empty text
    included, is ["english"]; any other text is ["hindi"] exactly when the
    quotient of the number of characters of the Devanagari block (U+0900 to
    U+097F) by the number of alphabetic characters is strictly greater than
    the threshold, so that a quotient equal to the threshold gives
    ["english"]; the default threshold is 0.3. *)
Theorem detect_language_threshold (cfg : Config.AppConfig) (env : Env)
  (text : pystr) :
  let hindi_chars := List.length (filter Utils.is_devanagari text) in
  let total_chars := List.length (filter (isalpha env) text) in
  let hindi_ratio :=
    PrimFloat.div (Utils.float_of_nat hindi_chars)
                  (Utils.float_of_nat total_chars) in
  let threshold := Config.hindi_threshold (Config.language cfg) in
  let answer := Utils.detect_language cfg env text in
  (answer = u"hindi" \/ answer = u"english") /\
  (total_chars = 0 -> answer = u"english") /\
  (total_chars <> 0 ->
   (answer = u"hindi" <-> PrimFloat.ltb threshold hindi_ratio = true)) /\
  (total_chars <> 0 ->
   PrimFloat.eqb hindi_ratio threshold = true -> answer = u"english") /\
  Utils.detect_language cfg env [] = u"english" /\
  (forall key,
     Config.hindi_threshold (Config.language (Config.defaults key))
     = 0x1.3333333333333p-2%float).
Proof.
  intros hindi_chars total_chars hindi_ratio threshold answer.
  assert (Hdef : answer =
    if Nat.eqb total_chars 0 then u"english"
    else if PrimFloat.ltb threshold hindi_ratio then u"hindi"
         else u"english") by reflexivity.
  split; [apply detect_language_range|].
  split.
  { intros H0. rewrite Hdef, H0. reflexivity. }
  split.
  { intros Hn. apply Nat.eqb_neq in Hn. rewrite Hdef, Hn.
    destruct (PrimFloat.ltb threshold hindi_ratio); split; intro H;
      try reflexivity; try discriminate H. }
  split.
  { intros Hn Heq. apply Nat.eqb_neq in Hn. rewrite Hdef, Hn.
    now rewrite (float_eqb_not_ltb Heq). }
  split; reflexivity.
Qed.

(* ===================================================================== *)
(** * The vector store manager *)
(* ===================================================================== *)

(** [open_Chroma] reads and writes nothing: it logs the call, and raises
    or returns the handle. *)
Lemma open_Chroma_run (cfg : Config.AppConfig) (env : Env)
  (self : VectorStoreManager.t) (w : World) :
  let dir := Config.chroma_dir (Config.vectorstore cfg) in
  let w' := logged (EvChroma dir) w in
  VectorStoreManager.open_Chroma cfg env self w =
  match new_Chroma env (List.length (trace w)) dir with
  | None =>
    (Ok {| persist_directory := dir;
           embedding_function := VectorStoreManager.embeddings self |},
     self, w')
  | Some e => (Raise e, self, w')
  end.
Proof.
  unfold VectorStoreManager.open_Chroma. step.
  destruct (new_Chroma env _ _); reflexivity.
Qed.

(** [clear_documents] never raises; it empties the list, keeps the flag
    and the embeddings, and leaves the persisted chunks as they are. *)
Lemma clear_documents_run (cfg : Config.AppConfig) (env : Env)
  (self : VectorStoreManager.t) (w : World) :
  exists ok msg self' w',
    VectorStoreManager.clear_documents cfg env self w
      = (Ok (ok, msg), self', w') /\
    VectorStoreManager.documents self' = [] /\
    VectorStoreManager.is_initialized self'
      = VectorStoreManager.is_initialized self /\
    VectorStoreManager.embeddings self' = VectorStoreManager.embeddings self /\
    chroma_store w' = chroma_store w /\
    (VectorStoreManager.is_initialized self = false ->
     ok = true /\ msg = u"Documents cleared successfully" /\ w' = w /\
     VectorStoreManager.vectorstore self'
       = VectorStoreManager.vectorstore self) /\
    (ok = true -> VectorStoreManager.is_initialized self = true ->
     VectorStoreManager.vectorstore self' <> None).
Proof.
  unfold VectorStoreManager.clear_documents,
    VectorStoreManager.set_documents, VectorStoreManager.set_vectorstore.
  run.
  destruct (VectorStoreManager.is_initialized self) eqn:Hinit; run.
  - destruct (new_Chroma env _ _) as [e|]; run;
      do 4 eexists; (split; [reflexivity|]); cbn;
      repeat split; try assumption; try discriminate.
  - do 4 eexists. split; [reflexivity|]. cbn.
    repeat split; try assumption; try discriminate.
Qed.

(** C10. [clear_documents] leaves [is_initialized] as it finds it, in every
    state.  On a manager that is not initialized (a new one in particular)
    it returns [(True, "Documents cleared successfully")] and the list is
    empty afterwards, where [add_documents] returns
    [(False, "Vector store not initialized")] and changes nothing. *)
Theorem clear_documents_frame (cfg : Config.AppConfig) (env : Env)
  (self : VectorStoreManager.t) (w : World) (docs : list Document) :
  let out := VectorStoreManager.clear_documents cfg env self w in
  VectorStoreManager.is_initialized (snd (fst out))
    = VectorStoreManager.is_initialized self /\
  (VectorStoreManager.is_initialized self = false ->
   out = (Ok (true, u"Documents cleared successfully"),
          {| VectorStoreManager.embeddings :=
               VectorStoreManager.embeddings self;
             VectorStoreManager.vectorstore :=
               VectorStoreManager.vectorstore self;
             VectorStoreManager.documents := [];
             VectorStoreManager.is_initialized := false |},
          w) /\
   VectorStoreManager.add_documents env docs self w
     = (Ok (false, u"Vector store not initialized"), self, w)) /\
  VectorStoreManager.is_initialized VectorStoreManager.__init__ = false.
Proof.
  intros out.
  destruct (clear_documents_run cfg env self w)
    as (ok & msg & self' & w' & Hrun & Hdocs & Hinit & Hemb & _ & Hoff & _).
  subst out. rewrite Hrun. cbn [fst snd].
  split; [exact Hinit|]. split; [|reflexivity].
  intros E. destruct (Hoff E) as (-> & -> & -> & Hvs). split.
  - rewrite E in Hinit. clear Hrun Hoff.
    destruct self' as [e v d i]. cbn in Hdocs, Hinit, Hemb, Hvs.
    now subst.
  - unfold VectorStoreManager.add_documents. step. now rewrite E.
Qed.

(** [similarity_search], step by step. *)
Lemma similarity_search_run (cfg : Config.AppConfig) (env : Env)
  (self : VectorStoreManager.t) (query : pystr) (k : option Z) (w : World) :
  VectorStoreManager.similarity_search cfg env query k self w =
  if negb (VectorStoreManager.is_initialized self)
     || is_None (VectorStoreManager.vectorstore self)
  then (Ok [], self, w)
  else
    let k' := VectorStoreManager.k_or_default cfg k in
    let w' := logged (EvGetRelevantDocuments query k') w in
    match get_relevant_documents env (List.length (trace w))
            (chroma_store w) query k' with
    | Ok relevant_docs => (Ok relevant_docs, self, w')
    | Raise _ => (Ok [], self, w')
    end.
Proof.
  unfold VectorStoreManager.similarity_search. step.
  destruct (negb _ || _); [reflexivity|]. step. cbn.
  destruct (get_relevant_documents env _ _ _ _); reflexivity.
Qed.

(** C7. [similarity_search] returns a list for every query, in every state
    and whatever the index answers: the empty list when the manager is not
    initialized or holds no index (then nothing is asked), the empty list
    when the retrieval raises, and what the retrieval returns otherwise.
    The manager itself is unchanged. *)
Theorem similarity_search_never_raises (cfg : Config.AppConfig) (env : Env)
  (self : VectorStoreManager.t) (query : pystr) (k : option Z) (w : World) :
  exists docs w',
    VectorStoreManager.similarity_search cfg env query k self w
      = (Ok docs, self, w') /\
    (if negb (VectorStoreManager.is_initialized self)
        || is_None (VectorStoreManager.vectorstore self)
     then docs = [] /\ w' = w
     else
       match get_relevant_documents env (List.length (trace w))
               (chroma_store w) query
               (VectorStoreManager.k_or_default cfg k) with
       | Raise _ => docs = []
       | Ok relevant_docs => docs = relevant_docs
       end).
Proof.
  rewrite similarity_search_run.
  destruct (negb _ || _).
  - exists [], w. now repeat split.
  - cbv zeta. destruct (get_relevant_documents env _ _ _ _) as [ds|e];
      eexists; eexists; (split; [reflexivity|reflexivity]).
Qed.

(* ===================================================================== *)
(** * The chat client *)
(* ===================================================================== *)

Lemma english_prompt_item :
  dict_item GroqClient.system_prompts u"english" = Ok Utils.english_prompt.
Proof. vm_compute. reflexivity. Qed.

(** The prompt is built for every question, context and language. *)
Lemma _create_prompt_total (self : GroqClient.t)
  (question context language : pystr) :
  exists full_prompt,
    GroqClient._create_prompt self question context language
      = Ok full_prompt.
Proof.
  unfold GroqClient._create_prompt. rewrite english_prompt_item.
  eexists. reflexivity.
Qed.

(** A connection error string is never an API error string: the first
    begins with C or with the Devanagari letter KA, the second with A. *)
Lemma connection_error_is_not_api_error (e1 e2 : exn) (l1 l2 : pystr) :
  Utils.ErrorHandler.handle_connection_error e1 l1
  <> Utils.ErrorHandler.handle_api_error e2 l2.
Proof.
  unfold Utils.ErrorHandler.handle_connection_error,
    Utils.ErrorHandler.handle_api_error.
  intros H. apply (f_equal (hd 0%N)) in H.
  destruct (PyStr.eqb l1 u"hindi"), (PyStr.eqb l2 u"hindi");
    vm_compute in H; discriminate H.
Qed.

(** [chat] never raises: it posts one request and returns a string. *)
Lemma chat_run (env : Env) (S : Type) (self : GroqClient.t)
  (prompt context language : pystr) (s : S) (w : World) :
  exists full_prompt answer,
    GroqClient.chat env self prompt context language s w
    = (Ok answer, s,
       logged (EvPost (GroqClient._create_request self full_prompt)) w).
Proof.
  destruct (_create_prompt_total self prompt context language)
    as [full_prompt Hprompt].
  exists full_prompt.
  unfold GroqClient.chat, GroqClient.chat_body, GroqClient.chat_except.
  rewrite Hprompt. step.
  destruct (requests_post env _ _) as [response|e].
  - destruct (status_code response =? 200)%Z;
      [destruct (json_content response) as [content|e]|];
      try (eexists; reflexivity).
    destruct (is_Timeout e); [|destruct (is_ConnectionError e)];
      eexists; reflexivity.
  - destruct (is_Timeout e); [|destruct (is_ConnectionError e)];
      eexists; reflexivity.
Qed.

(** C3. [chat] returns a string for every prompt, context and language,
    whatever the endpoint does, and raises nothing; it posts one request and
    changes nothing else.  A response whose status is not 200 gives the API
    prefix of the language, then ["API Error <status>: <body>"], so the
    string holds the word Error and the status code; a timeout gives the
    connection prefix of the language and ["Request timed out"], any other
    connection error the same prefix and ["Failed to connect to Groq API"];
    every other exception the API prefix and its text.  The prefixes are the
    Hindi ones when the language is ["hindi"], the English ones otherwise,
    and a connection string is never an API string. *)
Theorem chat_returns_string (env : Env) (S : Type) (self : GroqClient.t)
  (prompt context language : pystr) (s : S) (w : World) :
  exists full_prompt answer,
    GroqClient._create_prompt self prompt context language = Ok full_prompt /\
    let r := GroqClient._create_request self full_prompt in
    let api_prefix :=
      if PyStr.eqb language u"hindi" then u"API त्रुटि: "
      else u"API Error: " in
    let connection_prefix :=
      if PyStr.eqb language u"hindi" then u"कनेक्शन त्रुटि: "
      else u"Connection Error: " in
    let on_exception (e : exn) :=
      if is_Timeout e then
        answer = connection_prefix ++ u"Request timed out"
      else if is_ConnectionError e then
        answer = connection_prefix ++ u"Failed to connect to Groq API"
      else answer = api_prefix ++ exn_str e in
    GroqClient.chat env self prompt context language s w
      = (Ok answer, s, logged (EvPost r) w) /\
    match requests_post env (List.length (trace w)) r with
    | Ok response =>
      if (status_code response =? 200)%Z then
        match json_content response with
        | Ok content => answer = content
        | Raise e => on_exception e
        end
      else
        answer = api_prefix ++ u"API Error " ++ of_Z (status_code response)
                   ++ u": " ++ text response /\
        Contains u"Error" answer /\
        Contains (of_Z (status_code response)) answer
    | Raise e => on_exception e
    end /\
    (forall e1 e2 l1 l2,
       Utils.ErrorHandler.handle_connection_error e1 l1
       <> Utils.ErrorHandler.handle_api_error e2 l2).
Proof.
  pose proof connection_error_is_not_api_error as Hdistinct.
  destruct (_create_prompt_total self prompt context language)
    as [full_prompt Hprompt].
  exists full_prompt.
  unfold GroqClient.chat, GroqClient.chat_body, GroqClient.chat_except.
  rewrite Hprompt.
  unfold Utils.ErrorHandler.handle_connection_error,
    Utils.ErrorHandler.handle_api_error.
  step. cbn [exn_str].
  destruct (PyStr.eqb language u"hindi");
    (destruct (requests_post env _ _) as [response|e];
     [ destruct (status_code response =? 200)%Z;
       [ destruct (json_content response) as [content|e];
         [ exists content
         | destruct (is_Timeout e); [|destruct (is_ConnectionError e)];
           eexists ];
         repeat split; exact Hdistinct
       | eexists; split; [reflexivity|]; split; [reflexivity|];
         split; [split; [reflexivity|split]|exact Hdistinct] ]
     | destruct (is_Timeout e); [|destruct (is_ConnectionError e)];
       eexists; repeat split; exact Hdistinct ]).
  all: try (apply Contains_after;
            exists u"API ", (u" " ++ of_Z (status_code response) ++ u": "
                               ++ text response);
            reflexivity).
  all: apply Contains_after; apply Contains_after; apply Contains_here.
Qed.

(** [test_connection] never raises either: one request, and a verdict. *)
Lemma test_connection_run (env : Env) (S : Type) (self : GroqClient.t)
  (s : S) (w : World) :
  exists ok msg r,
    GroqClient.test_connection env self s w
      = (Ok (ok, msg), s, logged (EvPost r) w).
Proof.
  destruct (chat_run env self u"Hello" [] u"english" s w)
    as (full_prompt & answer & Hchat).
  unfold GroqClient.test_connection. step. rewrite Hchat.
  destruct (contains u"Error" answer); do 3 eexists; reflexivity.
Qed.

(* ===================================================================== *)
(** * The orchestrator *)
(* ===================================================================== *)

(** [VectorStoreManager.initialize] never raises. *)
Lemma vs_initialize_run (cfg : Config.AppConfig) (env : Env)
  (self : VectorStoreManager.t) (w : World) :
  exists ok msg self' w',
    VectorStoreManager.initialize cfg env self w
      = (Ok (ok, msg), self', w') /\
    VectorStoreManager.is_initialized self'
      = ok || VectorStoreManager.is_initialized self /\
    VectorStoreManager.documents self' = VectorStoreManager.documents self /\
    chroma_store w' = chroma_store w.
Proof.
  unfold VectorStoreManager.initialize, VectorStoreManager._test_embeddings,
    VectorStoreManager.open_Chroma, VectorStoreManager.set_embeddings,
    VectorStoreManager.set_vectorstore,
    VectorStoreManager.set_is_initialized.
  run.
  destruct (new_OllamaEmbeddings env _ _ _) as [e|]; run;
    [do 4 eexists; split; [reflexivity|now cbn]|].
  destruct (embed_query env _ _) as [[|x v]|e]; run;
    try (do 4 eexists; split; [reflexivity|now cbn]).
  destruct (new_Chroma env _ _) as [e|]; run;
    do 4 eexists; (split; [reflexivity|now cbn]).
Qed.

Lemma no_docs_item :
  dict_item RAGSystem.messages u"no_docs_error"
  = Ok [ (u"hindi", u"कृपया पहले दस्तावेज़ अपलोड करके प्रोसेस करें!");
         (u"english", u"Please upload and process documents first!") ].
Proof. vm_compute. reflexivity. Qed.

(** A dict of the two languages, read at a language [detect_language]
    answers. *)
Lemma by_language_item (V : Type) (h e : V) (lang : pystr) :
  lang = u"hindi" \/ lang = u"english" ->
  dict_item [ (u"hindi", h); (u"english", e) ] lang
  = Ok (if PyStr.eqb lang u"hindi" then h else e).
Proof.
  intros [-> | ->]; vm_compute; reflexivity.
Qed.

(** C4. [initialize] builds the chat client and tests its connection
    first.  When the test fails it returns [False] with
    ["Groq initialization failed: "] and the test's message; the vector
    store is the one it was, and the only call made is the test's request.
    When the test succeeds the vector store is initialized: a failure there
    gives [False] with ["Vector store initialization failed: "] and its
    message.  [is_initialized] becomes [True] when both succeed and keeps
    its value in every other case.  (When the client cannot be built for
    lack of a key, nothing is called at all.) *)
Theorem initialize_order (cfg : Config.AppConfig) (env : Env)
  (api_key : option pystr) (self : RAGSystem.t) (w : World) :
  match GroqClient.__init__ cfg api_key None with
  | Raise e =>
    RAGSystem.initialize cfg env api_key self w
      = (Ok (false, u"RAG system initialization error: " ++ exn_str e),
         self, w)
  | Ok client =>
    let self1 := {| RAGSystem.groq_client := Some client;
                    RAGSystem.vector_store := RAGSystem.vector_store self;
                    RAGSystem.is_initialized :=
                      RAGSystem.is_initialized self |} in
    exists groq_success groq_message request,
      let w1 := logged (EvPost request) w in
      GroqClient.test_connection env client self1 w
        = (Ok (groq_success, groq_message), self1, w1) /\
      if groq_success then
        exists vs_success vs_message vs' w2,
          VectorStoreManager.initialize cfg env
            (RAGSystem.vector_store self) w1
            = (Ok (vs_success, vs_message), vs', w2) /\
          RAGSystem.initialize cfg env api_key self w
            = (Ok (if vs_success
                   then (true, u"RAG system initialized successfully!")
                   else (false,
                         u"Vector store initialization failed: "
                           ++ vs_message)),
               {| RAGSystem.groq_client := Some client;
                  RAGSystem.vector_store := vs';
                  RAGSystem.is_initialized :=
                    vs_success || RAGSystem.is_initialized self |},
               w2)
      else
        RAGSystem.initialize cfg env api_key self w
          = (Ok (false, u"Groq initialization failed: " ++ groq_message),
             self1, w1)
  end.
Proof.
  unfold RAGSystem.initialize, RAGSystem.set_groq_client,
    RAGSystem.set_is_initialized, RAGSystem.on_vector_store,
    RAGSystem.with_vector_store.
  destruct (GroqClient.__init__ cfg api_key None) as [client|e]; step;
    [|reflexivity].
  cbn [RAGSystem.groq_client RAGSystem.vector_store RAGSystem.is_initialized].
  match goal with
  | |- context [GroqClient.test_connection env client ?s1 w] =>
    destruct (test_connection_run env client s1 w)
      as (groq_success & groq_message & request & Htest)
  end.
  exists groq_success, groq_message, request.
  cbv zeta. rewrite Htest. split; [reflexivity|].
  destruct groq_success; cbn; [|reflexivity].
  destruct (vs_initialize_run cfg env (RAGSystem.vector_store self)
              (logged (EvPost request) w))
    as (vs_success & vs_message & vs' & w2 & Hvs & _).
  exists vs_success, vs_message, vs', w2.
  rewrite Hvs. split; [reflexivity|].
  destruct vs_success; reflexivity.
Qed.

(** C1. [query] detects the language of the question first.  With no
    document in the vector store it returns the "please upload and process
    documents first" message of that language and no source, whether the
    system is initialized or not; with documents and [is_initialized] false
    it returns the "system not initialized" message of that language and no
    source.  In both cases the system and the world are left as they were:
    no request is posted and no search is made. *)
Theorem query_gating (cfg : Config.AppConfig) (env : Env)
  (question : pystr) (self : RAGSystem.t) (w : World) :
  let detected_language := Utils.detect_language cfg env question in
  let hindi := PyStr.eqb detected_language u"hindi" in
  (VectorStoreManager.get_document_count (RAGSystem.vector_store self) = 0 ->
   RAGSystem.query cfg env question self w
   = (Ok (if hindi
          then u"कृपया पहले दस्तावेज़ अपलोड करके प्रोसेस करें!"
          else u"Please upload and process documents first!", []),
      self, w)) /\
  (VectorStoreManager.get_document_count (RAGSystem.vector_store self) <> 0 ->
   RAGSystem.is_initialized self = false ->
   RAGSystem.query cfg env question self w
   = (Ok (if hindi
          then u"सिस्टम तैयार नहीं है!"
          else u"System not initialized!", []),
      self, w)).
Proof.
  intros detected_language hindi.
  unfold RAGSystem.query, RAGSystem.query_with.
  fold detected_language. step.
  split.
  - intros ->. cbn [Nat.eqb]. rewrite no_docs_item.
    rewrite (by_language_item _ _ (detect_language_range cfg env question)).
    reflexivity.
  - intros Hcount Hinit.
    apply Nat.eqb_neq in Hcount. rewrite Hcount, Hinit. cbn [negb].
    fold hindi. destruct hindi; reflexivity.
Qed.

(** C8. [query] returns an answer and a list of sources for every
    question, in every state, and raises nothing.  This holds for any
    behaviour of the three calls of its [try] (the similarity search, the
    construction of the context, the chat call): when one of them raises,
    the answer is the API error string of the exception in the language
    detected from the question, and the list of sources is empty. *)
Theorem query_never_raises (cfg : Config.AppConfig) (env : Env)
  (search : pystr -> M RAGSystem.t (list Document))
  (context_of : list Document -> M RAGSystem.t pystr)
  (chat : pystr -> pystr -> pystr -> M RAGSystem.t pystr)
  (question : pystr) (self : RAGSystem.t) (w : World) :
  let detected_language := Utils.detect_language cfg env question in
  (exists answer sources self' w',
     RAGSystem.query_with cfg env search context_of chat question self w
       = (Ok (answer, sources), self', w')) /\
  (exists answer sources self' w',
     RAGSystem.query cfg env question self w
       = (Ok (answer, sources), self', w')) /\
  (VectorStoreManager.get_document_count (RAGSystem.vector_store self) <> 0 ->
   RAGSystem.is_initialized self = true ->
   match RAGSystem.query_try search context_of chat question
           detected_language self w with
   | (Raise e, self', w') =>
     RAGSystem.query_with cfg env search context_of chat question self w
     = (Ok (Utils.ErrorHandler.handle_api_error e detected_language, []),
        self', w')
   | (Ok r, self', w') =>
     RAGSystem.query_with cfg env search context_of chat question self w
     = (Ok r, self', w')
   end).
Proof.
  intros detected_language.
  assert (Hany : forall search context_of chat,
    exists answer sources self' w',
      RAGSystem.query_with cfg env search context_of chat question self w
        = (Ok (answer, sources), self', w')).
  { clear search context_of chat. intros search context_of chat.
    unfold RAGSystem.query_with. fold detected_language. step.
    destruct (Nat.eqb _ 0).
    - rewrite no_docs_item.
      rewrite (by_language_item _ _ (detect_language_range cfg env question)).
      do 4 eexists; reflexivity.
    - destruct (negb (RAGSystem.is_initialized self)).
      + destruct (PyStr.eqb detected_language u"hindi");
          do 4 eexists; reflexivity.
      + destruct (RAGSystem.query_try _ _ _ _ _ _ _) as [[[[a ds]|e] s'] w'];
          do 4 eexists; reflexivity. }
  split; [apply Hany|]. split; [apply Hany|].
  intros Hcount Hinit. apply Nat.eqb_neq in Hcount.
  unfold RAGSystem.query_with. fold detected_language. step.
  rewrite Hcount, Hinit. cbn [negb].
  destruct (RAGSystem.query_try _ _ _ _ _ _ _) as [[[r|e] s'] w'];
    reflexivity.
Qed.

(* ===================================================================== *)
(** * The document processor *)
(* ===================================================================== *)

Lemma logged_length (ev : event) (w : World) :
  List.length (trace (logged ev w)) = S (List.length (trace w)).
Proof.
  unfold logged. cbn. rewrite length_app. cbn. lia.
Qed.

(** The loop of [load_documents] never raises, and adds to the two lists
    what [loaded] says, file after file. *)
Lemma load_loop_run (env : Env) (S : Type) (file_paths : list pystr) :
  forall (documents : list Document) (errors : list pystr) (s : S)
         (w : World),
    DocumentProcessor.load_loop env file_paths (documents, errors) s w
    = (Ok (documents
             ++ fst (DocumentProcessor.loaded env file_paths
                       (List.length (trace w))),
           errors
             ++ snd (DocumentProcessor.loaded env file_paths
                       (List.length (trace w)))),
       s,
       {| chroma_store := chroma_store w;
          trace := trace w ++ DocumentProcessor.load_events file_paths |}).
Proof.
  induction file_paths as [|file_path rest IH]; intros documents errors s w.
  - cbn. rewrite !app_nil_r. now destruct w.
  - cbn [DocumentProcessor.load_loop DocumentProcessor.loaded
         DocumentProcessor.load_events flat_map].
    unfold DocumentProcessor.load_one. step.
    destruct (DocumentProcessor._get_loader file_path) as [loader|].
    + step.
      destruct (DocumentProcessor.loaded env rest (Datatypes.S _))
        as [ds es] eqn:Hrest.
      destruct (load env (List.length (trace w)) loader) as [docs|e];
        rewrite IH, logged_length, Hrest; unfold logged; cbn [fst snd
          chroma_store trace]; rewrite <- !app_assoc; reflexivity.
    + destruct (DocumentProcessor.loaded env rest _) as [ds es] eqn:Hrest.
      rewrite IH, Hrest. cbn [fst snd app]. rewrite <- !app_assoc.
      reflexivity.
Qed.

Lemma load_documents_run (env : Env) (S : Type) (file_paths : list pystr)
  (s : S) (w : World) :
  DocumentProcessor.load_documents env file_paths s w
  = (Ok (DocumentProcessor.loaded env file_paths (List.length (trace w))),
     s,
     {| chroma_store := chroma_store w;
        trace := trace w ++ DocumentProcessor.load_events file_paths |}).
Proof.
  unfold DocumentProcessor.load_documents. rewrite load_loop_run.
  cbn [app]. now destruct (DocumentProcessor.loaded env file_paths _).
Qed.

(** A batch is the batch of its first files followed by the batch of the
    others, run later: no file stops the files after it. *)
Lemma loaded_app (env : Env) (before after : list pystr) :
  forall n,
    DocumentProcessor.loaded env (before ++ after) n
    = (fst (DocumentProcessor.loaded env before n)
         ++ fst (DocumentProcessor.loaded env after
                   (n + DocumentProcessor.attempts before)),
       snd (DocumentProcessor.loaded env before n)
         ++ snd (DocumentProcessor.loaded env after
                   (n + DocumentProcessor.attempts before))).
Proof.
  unfold DocumentProcessor.attempts.
  induction before as [|p before IH]; intros n.
  - cbn. rewrite Nat.add_0_r.
    now destruct (DocumentProcessor.loaded env after n).
  - change (DocumentProcessor.load_events (p :: before))
      with (match DocumentProcessor._get_loader p with
            | Some loader => [EvLoad loader]
            | None => []
            end ++ DocumentProcessor.load_events before).
    cbn [app DocumentProcessor.loaded].
    destruct (DocumentProcessor._get_loader p) as [loader|];
      cbn [app List.length]; rewrite IH.
    + rewrite Nat.add_succ_r. cbn [Nat.add].
      destruct (DocumentProcessor.loaded env before (Datatypes.S n))
        as [d1 e1].
      destruct (DocumentProcessor.loaded env after _) as [d2 e2].
      destruct (load env n loader); cbn [fst snd];
        now rewrite <- ?app_assoc.
    + destruct (DocumentProcessor.loaded env before n) as [d1 e1].
      destruct (DocumentProcessor.loaded env after _) as [d2 e2].
      reflexivity.
Qed.

(** C6. [process_documents] never raises.  It returns [False] exactly when
    the batch loads no document, or loads some and no chunk comes out of
    the splitter (it raises, or returns none).  Otherwise it returns [True],
    the chunks, and a message that carries the number of chunks and, when
    files failed, the number of per-file errors.  The documents and errors
    of a batch are those of its first files followed by those of the rest:
    a file without a loader or whose loader raises adds one error and the
    files after it are still loaded. *)
Theorem process_documents_outcome (cfg : Config.AppConfig) (env : Env)
  (S : Type) (before after : list pystr) (s : S) (w : World) :
  let file_paths := before ++ after in
  let n := List.length (trace w) in
  let documents := fst (DocumentProcessor.loaded env file_paths n) in
  let load_errors := snd (DocumentProcessor.loaded env file_paths n) in
  let chunks :=
    text_splitter env (Config.chunk_size (Config.vectorstore cfg))
      (Config.chunk_overlap (Config.vectorstore cfg)) documents in
  exists ok msg splits,
    DocumentProcessor.process_documents cfg env file_paths s w
    = (Ok (ok, msg, splits), s,
       {| chroma_store := chroma_store w;
          trace := trace w ++ DocumentProcessor.load_events file_paths |}) /\
    (ok = false <->
     documents = [] \/ forall c cs, chunks <> Ok (c :: cs)) /\
    (if ok then
       chunks = Ok splits /\
       msg = u"Successfully processed " ++ of_nat (List.length splits)
               ++ u" document chunks"
               ++ match load_errors with
                  | [] => []
                  | _ :: _ =>
                    u" (with " ++ of_nat (List.length load_errors)
                      ++ u" errors)"
                  end
     else splits = []) /\
    documents
    = fst (DocumentProcessor.loaded env before n)
        ++ fst (DocumentProcessor.loaded env after
                  (n + DocumentProcessor.attempts before)) /\
    load_errors
    = snd (DocumentProcessor.loaded env before n)
        ++ snd (DocumentProcessor.loaded env after
                  (n + DocumentProcessor.attempts before)).
Proof.
  intros file_paths n documents load_errors chunks.
  assert (Happ := loaded_app env before after n).
  fold file_paths in Happ.
  unfold DocumentProcessor.process_documents. step.
  rewrite load_documents_run. fold n.
  destruct (DocumentProcessor.loaded env file_paths n) as [ds es] eqn:Hl.
  injection Happ as Hds Hes.
  subst documents load_errors. cbn [fst snd] in *.
  destruct ds as [|d ds'].
  - exists false. do 2 eexists. split; [reflexivity|].
    repeat split; auto.
  - unfold DocumentProcessor.split_documents. step. fold chunks.
    destruct chunks as [[|c cs]|e] eqn:Hc.
    + exists false. do 2 eexists. split; [reflexivity|].
      repeat split; auto. intros _. right. discriminate.
    + exists true. do 2 eexists. split; [reflexivity|].
      split; [|split; [split; [reflexivity|]|split; assumption]].
      * split; [discriminate|].
        intros [H|H]; [discriminate H|now destruct (H c cs)].
      * destruct es; [now rewrite app_nil_r|].
        now rewrite <- !app_assoc.
    + exists false. do 2 eexists. split; [reflexivity|].
      repeat split; auto. intros _. right. discriminate.
Qed.

(* ===================================================================== *)
(** * The chunking rule *)
(* ===================================================================== *)

Lemma firstn_plus (A : Type) (n m : nat) (l : list A) :
  firstn (n + m) l = firstn n l ++ firstn m (skipn n l).
Proof.
  revert l; induction n as [|n IH]; intros l; [reflexivity|].
  destruct l as [|x l]; cbn; [now rewrite firstn_nil|].
  now rewrite IH.
Qed.

Section SlidingWindow.

Variables size overlap : nat.
Hypothesis overlap_lt_size : overlap < size.

(** With fuel left, the first window is the first [size] characters. *)
Lemma windows_head (fuel : nat) (s : pystr) :
  exists rest,
    Chunking.windows (S fuel) size overlap s = firstn size s :: rest.
Proof.
  cbn [Chunking.windows].
  destruct (Nat.leb (List.length s) size) eqn:E.
  - apply Nat.leb_le in E. exists []. now rewrite firstn_all2.
  - eexists. reflexivity.
Qed.

(** What is left after a window that is not the last one. *)
Lemma rest_length (s : pystr) :
  size < List.length s ->
  overlap < List.length (skipn (size - overlap) s) < List.length s.
Proof. rewrite length_skipn. lia. Qed.

(** The fuel [sliding_window] gives is enough: nothing of the text is
    lost. *)
Lemma windows_rebuild (fuel : nat) :
  forall s : pystr,
    s <> [] -> List.length s <= fuel ->
    Chunking.rebuild overlap (Chunking.windows fuel size overlap s) = s.
Proof.
  induction fuel as [|fuel IH]; intros s Hs Hfuel.
  - destruct s; [contradiction|cbn in Hfuel; lia].
  - cbn [Chunking.windows].
    destruct (Nat.leb (List.length s) size) eqn:E.
    + cbn. apply app_nil_r.
    + apply Nat.leb_gt in E.
      pose proof (rest_length s E) as Hrest.
      set (s' := skipn (size - overlap) s) in *.
      assert (Hs' : s' <> []) by (intros H0; rewrite H0 in Hrest; cbn in Hrest; lia).
      specialize (IH s' Hs' ltac:(lia)).
      destruct fuel as [|fuel']; [lia|].
      destruct (windows_head fuel' s') as [rest Hw].
      rewrite Hw in IH |- *. cbn [Chunking.rebuild map List.concat] in *.
      assert (H1 : firstn size s
                   = firstn (size - overlap) s ++ firstn overlap s').
      { replace size with ((size - overlap) + overlap) at 1 by lia.
        apply firstn_plus. }
      assert (H2 : firstn overlap s' ++ skipn overlap (firstn size s')
                   = firstn size s').
      { replace (firstn overlap s')
          with (firstn overlap (firstn size s')).
        - apply firstn_skipn.
        - rewrite firstn_firstn. f_equal. lia. }
      rewrite H1, <- !app_assoc, (app_assoc (firstn overlap s')), H2, IH.
      apply firstn_skipn.
Qed.

(** Every window holds at most [size] characters. *)
Lemma windows_bounded (fuel : nat) :
  forall (s c : pystr),
    In c (Chunking.windows fuel size overlap s) -> List.length c <= size.
Proof.
  induction fuel as [|fuel IH]; intros s c Hin; [destruct Hin|].
  cbn [Chunking.windows] in Hin.
  destruct (Nat.leb (List.length s) size) eqn:E.
  - apply Nat.leb_le in E. destruct Hin as [<-|[]]. exact E.
  - destruct Hin as [<-|Hin]; [|now apply IH in Hin].
    rewrite length_firstn. lia.
Qed.

(** A window that has a successor is full, and its last [overlap]
    characters are the first [overlap] characters of its successor. *)
Lemma windows_adjacent (fuel : nat) :
  forall (s : pystr) (i : nat),
    let chunks := Chunking.windows fuel size overlap s in
    S i < List.length chunks ->
    List.length (nth i chunks []) = size /\
    Chunking.last_chars overlap (nth i chunks [])
    = firstn overlap (nth (S i) chunks []) /\
    List.length (firstn overlap (nth (S i) chunks [])) = overlap.
Proof.
  induction fuel as [|fuel IH]; intros s i chunks Hi;
    [cbn in Hi; lia|].
  subst chunks. cbn [Chunking.windows] in *.
  destruct (Nat.leb (List.length s) size) eqn:E; [cbn in Hi; lia|].
  apply Nat.leb_gt in E.
  pose proof (rest_length s E) as Hrest.
  set (s' := skipn (size - overlap) s) in *.
  destruct i as [|i].
  - destruct fuel as [|fuel']; [cbn in Hi; lia|].
    destruct (windows_head fuel' s') as [rest Hw]. rewrite Hw.
    cbn [nth]. unfold Chunking.last_chars.
    rewrite length_firstn, firstn_firstn.
    replace (Nat.min size (List.length s)) with size by lia.
    replace (Nat.min overlap size) with overlap by lia.
    split; [reflexivity|]. split.
    + subst s'. rewrite firstn_skipn_comm. f_equal. f_equal. lia.
    + rewrite length_firstn. lia.
  - cbn [nth]. apply IH. cbn [List.length] in Hi. lia.
Qed.

End SlidingWindow.

(** C9. A document split by the sliding-window rule with [chunk_overlap]
    less than [chunk_size]: the first chunk followed by the other chunks
    without their first [chunk_overlap] characters is the text of the
    document; every chunk has at most [chunk_size] characters, and every
    chunk but the last exactly [chunk_size]; the last [chunk_overlap]
    characters of a chunk are the first [chunk_overlap] characters of the
    next one; every chunk carries the source of the document. *)
Theorem sliding_window_chunks (chunk_size chunk_overlap : nat)
  (d : Document) :
  chunk_overlap < chunk_size ->
  let pieces := Chunking.split_document chunk_size chunk_overlap d in
  let chunks := map page_content pieces in
  Chunking.rebuild chunk_overlap chunks = page_content d /\
  (forall i, S i < List.length chunks ->
             List.length (nth i chunks []) <= chunk_size) /\
  (forall c, In c chunks -> List.length c <= chunk_size) /\
  (forall i, S i < List.length chunks ->
             List.length (nth i chunks []) = chunk_size /\
             Chunking.last_chars chunk_overlap (nth i chunks [])
             = firstn chunk_overlap (nth (S i) chunks []) /\
             List.length (firstn chunk_overlap (nth (S i) chunks []))
             = chunk_overlap) /\
  (forall c, In c pieces -> source c = source d).
Proof.
  intros Hlt pieces chunks.
  assert (Hchunks : chunks
    = Chunking.sliding_window chunk_size chunk_overlap (page_content d)).
  { subst chunks pieces. unfold Chunking.split_document.
    rewrite map_map. cbn [page_content]. apply map_id. }
  assert (Hsrc : forall c, In c pieces -> source c = source d).
  { subst pieces. unfold Chunking.split_document. intros c Hin.
    apply in_map_iff in Hin as (x & <- & _). reflexivity. }
  rewrite Hchunks. clear Hchunks. unfold Chunking.sliding_window.
  destruct (page_content d) as [|a s] eqn:Hs.
  - cbn. repeat split; try (intros; cbn in *; lia); try contradiction.
    exact Hsrc.
  - split; [apply windows_rebuild; [exact Hlt|discriminate|lia]|].
    split; [intros i Hi;
            destruct (windows_adjacent Hlt _ _ Hi) as [H _]; lia|].
    split; [intros c; apply windows_bounded; exact Hlt|].
    split; [intros i Hi; exact (windows_adjacent Hlt _ _ Hi)|exact Hsrc].
Qed.

(* ===================================================================== *)
(** * Clearing the index *)
(* ===================================================================== *)

(** C2. After [clear_documents] the document count is 0, but the chunks
    persisted in the index are the ones that were there: the method opens
    the index again and deletes nothing.  On an initialized manager that
    cleared with success, a search asks the index over exactly these
    chunks, so what was ingested before can still be retrieved.  In the
    sample surroundings a chunk added before [clear_documents] is found by
    the search made after it. *)
Theorem clear_documents_keeps_index (cfg : Config.AppConfig) (env : Env)
  (self : VectorStoreManager.t) (w : World) (query : pystr) (k : option Z) :
  let out := VectorStoreManager.clear_documents cfg env self w in
  let self' := snd (fst out) in
  let w' := snd out in
  let k' := VectorStoreManager.k_or_default cfg k in
  VectorStoreManager.get_document_count self' = 0 /\
  chroma_store w' = chroma_store w /\
  (fst (fst out) = Ok (true, u"Documents cleared successfully") ->
   VectorStoreManager.is_initialized self = true ->
   VectorStoreManager.similarity_search cfg env query k self' w'
   = (match get_relevant_documents env (List.length (trace w'))
              (chroma_store w) query k' with
      | Ok relevant_docs => Ok relevant_docs
      | Raise _ => Ok []
      end,
      self', logged (EvGetRelevantDocuments query k') w')) /\
  fst (fst (Sample.clear_then_search VectorStoreManager.__init__
              Sample.world))
  = Ok (true, u"Documents cleared successfully", 0,
        [Sample.doc u"the secret token"]).
Proof.
  intros out self' w' k'.
  destruct (clear_documents_run cfg env self w)
    as (ok & msg & s1 & w1 & Hrun & Hdocs & Hinit & _ & Hstore & _ & Hvs).
  subst out self' w'. rewrite Hrun. cbn [fst snd].
  split.
  { unfold VectorStoreManager.get_document_count. now rewrite Hdocs. }
  split; [exact Hstore|].
  split; [|vm_compute; reflexivity].
  intros Hok Hready. injection Hok as -> _.
  specialize (Hvs eq_refl Hready).
  rewrite similarity_search_run, Hinit, Hready, Hstore. cbn [negb orb].
  destruct (VectorStoreManager.vectorstore s1); [|contradiction].
  cbn [is_None]. cbv zeta. fold k'.
  destruct (get_relevant_documents env _ _ _ _); reflexivity.
Qed.

(* ===================================================================== *)
(** * The theorems at work *)
(* ===================================================================== *)

(** Three Devanagari letters among ten letters: the quotient is the
    default threshold, and the text is English; four make it Hindi. *)
Lemma detect_language_threshold_witness :
  Utils.detect_language Sample.cfg Sample.env u"कखगabcdefg" = u"english" /\
  Utils.detect_language Sample.cfg Sample.env u"कखगघabcdef" = u"hindi".
Proof.
  split.
  - pose proof (detect_language_threshold Sample.cfg Sample.env
                  u"कखगabcdefg") as H.
    cbv zeta in H. destruct H as (_ & _ & _ & Hequal & _).
    apply Hequal.
    + vm_compute. discriminate.
    + vm_compute. reflexivity.
  - pose proof (detect_language_threshold Sample.cfg Sample.env
                  u"कखगघabcdef") as H.
    cbv zeta in H. destruct H as (_ & _ & Habove & _).
    apply Habove.
    + vm_compute. discriminate.
    + vm_compute. reflexivity.
Defined.

(** The languages of the two sample questions. *)
Lemma hello_is_english :
  Utils.detect_language Sample.cfg Sample.env u"hello" = u"english".
Proof. vm_compute. reflexivity. Qed.

Lemma namaste_is_hindi :
  Utils.detect_language Sample.cfg Sample.env u"नमस्ते दुनिया" = u"hindi".
Proof. vm_compute. reflexivity. Qed.

(** A system with no document answers in the language of the question;
    with a document and before [initialize] it says it is not ready. *)
Lemma query_gating_witness :
  RAGSystem.query Sample.cfg Sample.env u"नमस्ते दुनिया" RAGSystem.__init__
    Sample.world
  = (Ok (u"कृपया पहले दस्तावेज़ अपलोड करके प्रोसेस करें!", []),
     RAGSystem.__init__, Sample.world) /\
  RAGSystem.query Sample.cfg Sample.env u"hello" Sample.loaded_not_ready
    Sample.world
  = (Ok (u"System not initialized!", []),
     Sample.loaded_not_ready, Sample.world).
Proof.
  split.
  - rewrite (proj1 (query_gating Sample.cfg Sample.env u"नमस्ते दुनिया"
                      RAGSystem.__init__ Sample.world) eq_refl).
    rewrite namaste_is_hindi. reflexivity.
  - rewrite (proj2 (query_gating Sample.cfg Sample.env u"hello"
                      Sample.loaded_not_ready Sample.world)
               ltac:(discriminate) eq_refl).
    rewrite hello_is_english. reflexivity.
Defined.

(** The [try] of [query] on a system that says it is ready without a chat
    client: the search finds nothing, and the call of [chat] on [None]
    raises. *)
Lemma half_built_try :
  RAGSystem.query_try
    (fun q => RAGSystem.on_vector_store
                (VectorStoreManager.similarity_search
                   Sample.cfg Sample.env q None))
    (fun docs => ret (VectorStoreManager.get_context_from_docs docs))
    (RAGSystem.groq_client_chat Sample.env)
    u"hello" u"english" Sample.half_built Sample.world
  = (Raise (VectorStoreManager.none_has_no u"chat"),
     Sample.half_built, Sample.world).
Proof. vm_compute. reflexivity. Qed.

(** There the caller gets the API error string, and no exception. *)
Lemma query_never_raises_witness :
  RAGSystem.query Sample.cfg Sample.env u"hello" Sample.half_built
    Sample.world
  = (Ok (u"API Error: " ++ exn_str (VectorStoreManager.none_has_no u"chat"),
         []),
     Sample.half_built, Sample.world).
Proof.
  pose proof
    (proj2 (proj2
       (query_never_raises Sample.cfg Sample.env
          (fun q => RAGSystem.on_vector_store
                      (VectorStoreManager.similarity_search
                         Sample.cfg Sample.env q None))
          (fun docs => ret (VectorStoreManager.get_context_from_docs docs))
          (RAGSystem.groq_client_chat Sample.env)
          u"hello" Sample.half_built Sample.world))
       ltac:(discriminate) eq_refl) as H.
  rewrite hello_is_english, half_built_try in H.
  exact H.
Defined.

(** A new manager: clearing succeeds, adding does not. *)
Lemma clear_documents_frame_witness :
  VectorStoreManager.clear_documents Sample.cfg Sample.env
    VectorStoreManager.__init__ Sample.world
  = (Ok (true, u"Documents cleared successfully"),
     VectorStoreManager.__init__, Sample.world) /\
  VectorStoreManager.add_documents Sample.env [Sample.doc u"a chunk"]
    VectorStoreManager.__init__ Sample.world
  = (Ok (false, u"Vector store not initialized"),
     VectorStoreManager.__init__, Sample.world).
Proof.
  exact (proj1 (proj2
           (clear_documents_frame Sample.cfg Sample.env
              VectorStoreManager.__init__ Sample.world
              [Sample.doc u"a chunk"])) eq_refl).
Defined.

(** Ten characters in windows of four that share one. *)
Lemma sliding_window_chunks_witness :
  1 < 4 /\
  map page_content (Chunking.split_document 4 1 (Sample.doc u"abcdefghij"))
  = [u"abcd"; u"defg"; u"ghij"] /\
  Chunking.rebuild 1
    (map page_content (Chunking.split_document 4 1 (Sample.doc u"abcdefghij")))
  = u"abcdefghij".
Proof.
  split; [lia|]. split; [vm_compute; reflexivity|].
  apply (sliding_window_chunks (chunk_size := 4) (chunk_overlap := 1)
           (Sample.doc u"abcdefghij")).
  lia.
Defined.

(* ===================================================================== *)
(** * Runs in the sample surroundings *)
(* ===================================================================== *)

Example sample_client :
  GroqClient.__init__ Sample.cfg None None = Ok Sample.client.
Proof. vm_compute. reflexivity. Qed.

(** A response of status 500, in both languages. *)
Example chat_500_english :
  fst (fst (GroqClient.chat Sample.env_500 Sample.client u"Hi" []
              u"english" tt Sample.world))
  = Ok u"API Error: API Error 500: internal".
Proof. vm_compute. reflexivity. Qed.

Example chat_500_hindi :
  fst (fst (GroqClient.chat Sample.env_500 Sample.client u"Hi" []
              u"hindi" tt Sample.world))
  = Ok u"API त्रुटि: API Error 500: internal".
Proof. vm_compute. reflexivity. Qed.

(** A refused connection and a timeout. *)
Example chat_refused :
  fst (fst (GroqClient.chat Sample.env_refused Sample.client u"Hi" []
              u"english" tt Sample.world))
  = Ok u"Connection Error: Failed to connect to Groq API".
Proof. vm_compute. reflexivity. Qed.

Example chat_timeout_hindi :
  fst (fst (GroqClient.chat Sample.env_timeout Sample.client u"Hi" []
              u"hindi" tt Sample.world))
  = Ok u"कनेक्शन त्रुटि: Request timed out".
Proof. vm_compute. reflexivity. Qed.

(** [initialize] with the chat backend down, with the embedding backend
    down, and with both up. *)
Example initialize_chat_down :
  let '(r, self, w) :=
    RAGSystem.initialize Sample.cfg Sample.env_500 None RAGSystem.__init__
      Sample.world in
  r = Ok (false,
          u"Groq initialization failed: API Error: API Error 500: internal")
  /\ RAGSystem.vector_store self = VectorStoreManager.__init__
  /\ RAGSystem.is_initialized self = false
  /\ List.length (trace w) = 1.
Proof. vm_compute. repeat split. Qed.

Example initialize_ollama_down :
  let '(r, self, w) :=
    RAGSystem.initialize Sample.cfg Sample.env_no_ollama None
      RAGSystem.__init__ Sample.world in
  r = Ok (false,
          u"Vector store initialization failed: Ollama Error: Connection refused. Make sure Ollama is running with 'ollama serve'")
  /\ RAGSystem.is_initialized self = false.
Proof. vm_compute. repeat split. Qed.

Example initialize_all_up :
  let '(r, self, w) :=
    RAGSystem.initialize Sample.cfg Sample.env None RAGSystem.__init__
      Sample.world in
  r = Ok (true, u"RAG system initialized successfully!")
  /\ RAGSystem.is_initialized self = true.
Proof. vm_compute. repeat split. Qed.

(** A batch of three files, one of an unsupported type; and a batch where
    every file fails. *)
Example batch_of_three :
  fst (fst (DocumentProcessor.process_documents Sample.cfg Sample.env
              [u"a.txt"; u"b.doc"; u"c.PDF"] tt Sample.world))
  = Ok (true, u"Successfully processed 2 document chunks (with 1 errors)",
        [ {| page_content := u"text of a.txt"; source := u"a.txt" |};
          {| page_content := u"pdf text of c.PDF"; source := u"c.PDF" |} ]).
Proof. vm_compute. reflexivity. Qed.

Example batch_all_fail :
  fst (fst (DocumentProcessor.process_documents Sample.cfg Sample.env
              [u"broken.txt"; u"b.doc"; u"c.docx"] tt Sample.world))
  = Ok (false, u"No documents loaded successfully", []).
Proof. vm_compute. reflexivity. Qed.

(** A search finds the chunk that was added; when the index cannot be
    searched it finds nothing, and raises nothing. *)
Example search_finds_chunk :
  fst (fst (Sample.add_then_search Sample.env VectorStoreManager.__init__
              Sample.world))
  = Ok [Sample.doc u"the secret token"].
Proof. vm_compute. reflexivity. Qed.

Example search_degrades :
  fst (fst (Sample.add_then_search Sample.env_search_fails
              VectorStoreManager.__init__ Sample.world))
  = Ok [].
Proof. vm_compute. reflexivity. Qed.

(* ===================================================================== *)
(** * More on the vector store manager *)
(* ===================================================================== *)

(** [add_documents], step by step. *)
Lemma add_documents_run (env : Env) (docs : list Document)
  (self : VectorStoreManager.t) (w : World) :
  VectorStoreManager.add_documents env docs self w =
  if negb (VectorStoreManager.is_initialized self)
  then (Ok (false, u"Vector store not initialized"), self, w)
  else
    match docs with
    | [] => (Ok (false, u"No documents provided"), self, w)
    | _ :: _ =>
      match VectorStoreManager.vectorstore self with
      | None =>
        (Ok (false,
             Utils.ErrorHandler.handle_processing_error
               (VectorStoreManager.none_has_no u"add_documents") u"english"),
         self, w)
      | Some _ =>
        match store_add_documents env (List.length (trace w)) docs with
        | Some e =>
          (Ok (false,
               Utils.ErrorHandler.handle_processing_error e u"english"),
           self, logged (EvAddDocuments docs) w)
        | None =>
          (Ok (true,
               u"Added " ++ of_nat (List.length docs)
                 ++ u" document chunks to vector store"),
           {| VectorStoreManager.embeddings :=
                VectorStoreManager.embeddings self;
              VectorStoreManager.vectorstore :=
                VectorStoreManager.vectorstore self;
              VectorStoreManager.documents :=
                VectorStoreManager.documents self ++ docs;
              VectorStoreManager.is_initialized :=
                VectorStoreManager.is_initialized self |},
           {| chroma_store := chroma_store w ++ docs;
              trace := trace w ++ [EvAddDocuments docs] |})
        end
      end
    end.
Proof.
  unfold VectorStoreManager.add_documents, VectorStoreManager.store_add,
    VectorStoreManager.set_documents.
  step.
  destruct (negb (VectorStoreManager.is_initialized self)); [reflexivity|].
  destruct docs as [|d docs]; [reflexivity|].
  destruct (VectorStoreManager.vectorstore self) as [store|] eqn:Hvs;
    [|reflexivity].
  destruct (store_add_documents env _ _) as [e|]; [reflexivity|].
  unfold logged. cbn [chroma_store trace]. now rewrite Hvs.
Qed.

(** X1. [add_documents] never raises and never touches the flags or the
    handles.  When it returns [True] the manager was initialized and the
    batch not empty, the batch is appended both to the persisted chunks and
    to the in-memory list, and the message carries its size; when it
    returns [False] neither the list nor the persisted chunks change. *)
Theorem add_documents_outcome (env : Env) (docs : list Document)
  (self : VectorStoreManager.t) (w : World) :
  exists ok msg self' w',
    VectorStoreManager.add_documents env docs self w
      = (Ok (ok, msg), self', w') /\
    VectorStoreManager.is_initialized self'
      = VectorStoreManager.is_initialized self /\
    VectorStoreManager.embeddings self' = VectorStoreManager.embeddings self /\
    VectorStoreManager.vectorstore self'
      = VectorStoreManager.vectorstore self /\
    if ok then
      VectorStoreManager.is_initialized self = true /\
      VectorStoreManager.vectorstore self <> None /\
      docs <> [] /\
      VectorStoreManager.documents self'
        = VectorStoreManager.documents self ++ docs /\
      VectorStoreManager.get_document_count self'
        = VectorStoreManager.get_document_count self + List.length docs /\
      chroma_store w' = chroma_store w ++ docs /\
      msg = u"Added " ++ of_nat (List.length docs)
              ++ u" document chunks to vector store"
    else
      self' = self /\ chroma_store w' = chroma_store w.
Proof.
  rewrite add_documents_run.
  unfold VectorStoreManager.get_document_count.
  destruct (VectorStoreManager.is_initialized self) eqn:Hinit; cbn [negb];
    [|exists false; do 3 eexists; now repeat split].
  destruct docs as [|d docs];
    [exists false; do 3 eexists; now repeat split|].
  destruct (VectorStoreManager.vectorstore self) as [store|] eqn:Hvs;
    [|exists false; do 3 eexists; now repeat split].
  destruct (store_add_documents env _ _) as [e|].
  - exists false. do 3 eexists. now repeat split.
  - exists true. do 3 eexists.
    cbn [VectorStoreManager.is_initialized VectorStoreManager.embeddings
         VectorStoreManager.vectorstore VectorStoreManager.documents
         chroma_store].
    repeat split; try assumption; try discriminate.
    cbn [VectorStoreManager.documents]. now rewrite length_app.
Qed.

(** X2. After a [True] from [add_documents], a search asks the index over
    the chunks persisted before together with the batch just added. *)
Theorem search_after_add (cfg : Config.AppConfig) (env : Env)
  (docs : list Document) (query : pystr) (k : option Z)
  (self : VectorStoreManager.t) (w : World) :
  let out := VectorStoreManager.add_documents env docs self w in
  let self' := snd (fst out) in
  let w' := snd out in
  let k' := VectorStoreManager.k_or_default cfg k in
  (exists msg, fst (fst out) = Ok (true, msg)) ->
  VectorStoreManager.similarity_search cfg env query k self' w'
  = (match get_relevant_documents env (List.length (trace w'))
             (chroma_store w ++ docs) query k' with
     | Ok relevant_docs => Ok relevant_docs
     | Raise _ => Ok []
     end,
     self', logged (EvGetRelevantDocuments query k') w').
Proof.
  intros out self' w' k' [msg Hok].
  subst out self' w'. rewrite add_documents_run in *.
  destruct (VectorStoreManager.is_initialized self) eqn:Hinit; cbn [negb] in *;
    [|discriminate Hok].
  destruct docs as [|d docs]; [discriminate Hok|].
  destruct (VectorStoreManager.vectorstore self) as [store|] eqn:Hvs;
    [|discriminate Hok].
  destruct (store_add_documents env _ _) as [e|]; [discriminate Hok|].
  cbn [fst snd]. rewrite similarity_search_run.
  cbn [VectorStoreManager.is_initialized VectorStoreManager.vectorstore
       chroma_store].
  rewrite ?Hinit, ?Hvs. cbn [negb orb is_None]. cbv zeta. fold k'.
  destruct (get_relevant_documents env _ _ _ _); reflexivity.
Qed.

(** [VectorStoreManager.initialize] on a manager that fits its world. *)
Lemma vs_initialize_fits (cfg : Config.AppConfig) (env : Env)
  (self : VectorStoreManager.t) (w : World) :
  VectorStoreManager.consistent self w ->
  exists ok msg self' w',
    VectorStoreManager.initialize cfg env self w
      = (Ok (ok, msg), self', w') /\
    VectorStoreManager.consistent self' w' /\
    VectorStoreManager.is_initialized self'
      = ok || VectorStoreManager.is_initialized self /\
    chroma_store w' = chroma_store w.
Proof.
  intros [Hready [older Hstore]].
  unfold VectorStoreManager.consistent,
    VectorStoreManager.initialize, VectorStoreManager._test_embeddings,
    VectorStoreManager.open_Chroma, VectorStoreManager.set_embeddings,
    VectorStoreManager.set_vectorstore,
    VectorStoreManager.set_is_initialized.
  run.
  assert (Hvs : VectorStoreManager.is_initialized self = true ->
                VectorStoreManager.vectorstore self <> None)
    by (intros Hi; now destruct (Hready Hi)).
  assert (Hsome : forall e : OllamaEmbeddings, Some e <> None)
    by discriminate.
  destruct (new_OllamaEmbeddings env _ _ _) as [e|]; run;
    [do 4 eexists; (split; [reflexivity|]); unfold logged; cbn; eauto|].
  destruct (embed_query env _ _) as [[|x v]|e]; run;
    try (do 4 eexists; (split; [reflexivity|]); unfold logged; cbn;
         now eauto 7).
  destruct (new_Chroma env _ _) as [e|]; run;
    do 4 eexists; (split; [reflexivity|]); unfold logged; cbn;
    repeat split; eauto; discriminate.
Qed.

(** X3. [VectorStoreManager.initialize] never raises, and never changes
    the in-memory list or the persisted chunks.  It builds the embeddings,
    probes them with one [embed_query("test")], and opens the index only
    when the probe returns a vector that is not empty: when the probe
    raises or returns nothing, the index is not opened, the flag keeps its
    value, and the message says to make sure Ollama is running.  It
    returns [True], with the flag set and both handles held, exactly when
    the three steps succeed. *)
Theorem vs_initialize_outcome (cfg : Config.AppConfig) (env : Env)
  (self : VectorStoreManager.t) (w : World) :
  let n := List.length (trace w) in
  let m := Config.model (Config.ollama cfg) in
  let b := Config.base_url (Config.ollama cfg) in
  let dir := Config.chroma_dir (Config.vectorstore cfg) in
  exists ok msg self' w',
    VectorStoreManager.initialize cfg env self w
      = (Ok (ok, msg), self', w') /\
    VectorStoreManager.documents self' = VectorStoreManager.documents self /\
    chroma_store w' = chroma_store w /\
    (if ok then
       VectorStoreManager.is_initialized self' = true /\
       VectorStoreManager.embeddings self' <> None /\
       VectorStoreManager.vectorstore self' <> None /\
       msg = u"Vector store initialized successfully"
     else
       VectorStoreManager.is_initialized self'
         = VectorStoreManager.is_initialized self /\
       VectorStoreManager.vectorstore self'
         = VectorStoreManager.vectorstore self) /\
    match new_OllamaEmbeddings env n m b with
    | Some e =>
      ok = false /\
      msg = u"Vector store initialization failed: " ++ exn_str e /\
      trace w' = trace w ++ [EvOllamaEmbeddings m b]
    | None =>
      match embed_query env (S n) u"test" with
      | Raise e =>
        ok = false /\
        msg = u"Ollama Error: " ++ exn_str e
                ++ u". Make sure Ollama is running with 'ollama serve'" /\
        trace w' = trace w ++ [EvOllamaEmbeddings m b; EvEmbedQuery u"test"]
      | Ok [] =>
        ok = false /\
        msg = u"Ollama embeddings failed - make sure Ollama is running" /\
        trace w' = trace w ++ [EvOllamaEmbeddings m b; EvEmbedQuery u"test"]
      | Ok (_ :: _) =>
        trace w' = trace w ++ [EvOllamaEmbeddings m b; EvEmbedQuery u"test";
                               EvChroma dir] /\
        match new_Chroma env (S (S n)) dir with
        | Some e =>
          ok = false /\
          msg = u"Vector store initialization failed: " ++ exn_str e
        | None => ok = true
        end
      end
    end.
Proof.
  intros n m b dir.
  unfold VectorStoreManager.initialize, VectorStoreManager._test_embeddings,
    VectorStoreManager.open_Chroma, VectorStoreManager.set_embeddings,
    VectorStoreManager.set_vectorstore,
    VectorStoreManager.set_is_initialized.
  run. fold n m b dir.
  destruct (new_OllamaEmbeddings env n m b) as [e|]; run.
  { exists false. do 3 eexists. now repeat split. }
  rewrite !logged_length. fold n.
  destruct (embed_query env (S n) _) as [[|x v]|e]; run.
  - exists false. do 3 eexists. split; [reflexivity|].
    unfold logged; cbn. rewrite <- !app_assoc. now repeat split.
  - rewrite !logged_length. fold n dir.
    destruct (new_Chroma env (S (S n)) dir) as [e|]; run.
    + exists false. do 3 eexists. split; [reflexivity|].
      unfold logged; cbn. rewrite <- !app_assoc. now repeat split.
    + exists true. do 3 eexists. split; [reflexivity|].
      unfold logged; cbn. rewrite <- !app_assoc.
      repeat split; discriminate.
  - exists false. do 3 eexists. split; [reflexivity|].
    unfold logged; cbn. rewrite <- !app_assoc. now repeat split.
Qed.

(** X4. [health_check] never raises and changes neither the manager nor
    the persisted chunks.  It reports the flag, whether the embeddings
    exist, and the document count; it probes the embeddings once when they
    exist and not at all otherwise.  [embeddings_working] is true only if
    the embeddings exist and the probe returned a vector that is not empty,
    and then [last_error] is [None]; a probe that raises gives
    [embeddings_working] false and the text of the exception as
    [last_error]. *)
Theorem health_check_outcome (env : Env) (self : VectorStoreManager.t)
  (w : World) :
  exists h w',
    VectorStoreManager.health_check env self w = (Ok h, self, w') /\
    chroma_store w' = chroma_store w /\
    VectorStoreManager.vector_store_initialized h
      = VectorStoreManager.is_initialized self /\
    VectorStoreManager.document_count h
      = VectorStoreManager.get_document_count self /\
    VectorStoreManager.embeddings_available h
      = negb (is_None (VectorStoreManager.embeddings self)) /\
    (VectorStoreManager.embeddings_working h = true ->
     VectorStoreManager.embeddings_available h = true /\
     VectorStoreManager.last_error h = None) /\
    match VectorStoreManager.embeddings self with
    | None =>
      w' = w /\ VectorStoreManager.embeddings_working h = false /\
      VectorStoreManager.last_error h = None
    | Some _ =>
      w' = logged (EvEmbedQuery u"health check") w /\
      match embed_query env (List.length (trace w)) u"health check" with
      | Ok v =>
        VectorStoreManager.embeddings_working h = negb (Nat.eqb (List.length v) 0) /\
        VectorStoreManager.last_error h = None
      | Raise e =>
        VectorStoreManager.embeddings_working h = false /\
        VectorStoreManager.last_error h = Some (exn_str e)
      end
    end.
Proof.
  unfold VectorStoreManager.health_check,
    VectorStoreManager.get_document_count.
  run.
  destruct (VectorStoreManager.embeddings self) as [emb|]; run.
  - destruct (embed_query env _ _) as [[|x v]|e]; run;
      do 2 eexists; (split; [reflexivity|]); cbn;
      repeat split; try discriminate.
  - do 2 eexists. split; [reflexivity|]. cbn.
    repeat split; discriminate.
Qed.

(* ===================================================================== *)
(** * What every call keeps *)
(* ===================================================================== *)

Lemma nothing_added (A : Type) (l : list A) : l = l ++ [].
Proof. now rewrite app_nil_r. Qed.

Lemma consistent_parts (self : VectorStoreManager.t) (w : World) :
  VectorStoreManager.consistent self w ->
  (VectorStoreManager.is_initialized self = true ->
   VectorStoreManager.embeddings self <> None) /\
  (VectorStoreManager.is_initialized self = true ->
   VectorStoreManager.vectorstore self <> None) /\
  exists older,
    chroma_store w = older ++ VectorStoreManager.documents self.
Proof.
  intros [Hready Hstore]. repeat split; try assumption;
    intros Hi; now destruct (Hready Hi).
Qed.

Lemma vs_initialize_keeps (cfg : Config.AppConfig) (env : Env)
  (self : VectorStoreManager.t) (w : World) :
  VectorStoreManager.consistent self w ->
  VectorStoreManager.keeps (VectorStoreManager.initialize cfg env) self w.
Proof.
  intros Hfit.
  destruct (vs_initialize_fits cfg env Hfit)
    as (ok & msg & self' & w' & Hrun & Hfit' & Hinit & Hstore).
  exists (ok, msg), self', w'.
  split; [exact Hrun|]. split; [exact Hfit'|]. split.
  - rewrite Hinit. intros ->. apply orb_true_r.
  - exists []. rewrite Hstore. apply nothing_added.
Qed.

Lemma vs_add_documents_keeps (env : Env) (docs : list Document)
  (self : VectorStoreManager.t) (w : World) :
  VectorStoreManager.consistent self w ->
  VectorStoreManager.keeps (VectorStoreManager.add_documents env docs) self w.
Proof.
  intros Hfit.
  destruct (consistent_parts Hfit) as (Hemb & Hvs & older & Hstore).
  unfold VectorStoreManager.keeps.
  rewrite add_documents_run.
  destruct self as [emb vs ds init].
  cbn [VectorStoreManager.is_initialized VectorStoreManager.embeddings
       VectorStoreManager.vectorstore VectorStoreManager.documents] in *.
  destruct init; cbn [negb]; [|settle; eauto using nothing_added].
  destruct docs as [|d docs]; [settle; eauto using nothing_added|].
  destruct vs as [store|]; [|now destruct Hvs].
  destruct (store_add_documents env _ _) as [e|];
    [settle; eauto using nothing_added|].
  do 3 eexists. split; [reflexivity|].
  unfold VectorStoreManager.consistent. cbn.
  repeat split; eauto; try discriminate.
  exists older. rewrite Hstore. now rewrite <- app_assoc.
Qed.

Lemma vs_clear_documents_keeps (cfg : Config.AppConfig) (env : Env)
  (self : VectorStoreManager.t) (w : World) :
  VectorStoreManager.consistent self w ->
  VectorStoreManager.keeps (VectorStoreManager.clear_documents cfg env)
    self w.
Proof.
  intros Hfit.
  destruct (consistent_parts Hfit) as (Hemb & Hvs & _).
  assert (Hempty : forall d : list Document, exists older, d = older ++ [])
    by (intros d; exists d; apply nothing_added).
  unfold VectorStoreManager.keeps, VectorStoreManager.consistent,
    VectorStoreManager.clear_documents, VectorStoreManager.open_Chroma,
    VectorStoreManager.set_documents, VectorStoreManager.set_vectorstore.
  run.
  destruct (VectorStoreManager.is_initialized self) eqn:Hinit; run;
    [destruct (new_Chroma env _ _) as [e|]; run|]; settle;
    eauto using nothing_added.
Qed.

Lemma vs_similarity_search_keeps (cfg : Config.AppConfig) (env : Env)
  (query : pystr) (k : option Z) (self : VectorStoreManager.t) (w : World) :
  VectorStoreManager.consistent self w ->
  VectorStoreManager.keeps
    (VectorStoreManager.similarity_search cfg env query k) self w.
Proof.
  intros Hfit.
  destruct (consistent_parts Hfit) as (Hemb & Hvs & older & Hstore).
  unfold VectorStoreManager.keeps, VectorStoreManager.consistent.
  rewrite similarity_search_run.
  destruct (negb _ || _); [settle; eauto using nothing_added|].
  cbv zeta. destruct (get_relevant_documents env _ _ _ _); settle;
    eauto using nothing_added.
Qed.

Lemma vs_health_check_keeps (env : Env) (self : VectorStoreManager.t)
  (w : World) :
  VectorStoreManager.consistent self w ->
  VectorStoreManager.keeps (VectorStoreManager.health_check env) self w.
Proof.
  intros Hfit.
  destruct (consistent_parts Hfit) as (Hemb & Hvs & older & Hstore).
  unfold VectorStoreManager.keeps, VectorStoreManager.consistent,
    VectorStoreManager.health_check.
  run.
  destruct self as [emb vs ds init]; cbn in *.
  destruct emb as [emb|]; run;
    [destruct (embed_query env _ _) as [v|e]; run|]; settle;
    eauto using nothing_added.
Qed.

(** A method of the vector store that keeps what it should, run from the
    system. *)
Lemma on_vector_store_run (A : Type) (m : M VectorStoreManager.t A)
  (self : RAGSystem.t) (w : World) :
  VectorStoreManager.keeps m (RAGSystem.vector_store self) w ->
  exists r vs' w',
    RAGSystem.on_vector_store m self w
      = (Ok r, RAGSystem.with_vector_store vs' self, w') /\
    m (RAGSystem.vector_store self) w = (Ok r, vs', w') /\
    VectorStoreManager.consistent vs' w' /\
    (VectorStoreManager.is_initialized (RAGSystem.vector_store self) = true ->
     VectorStoreManager.is_initialized vs' = true) /\
    (exists added, chroma_store w' = chroma_store w ++ added).
Proof.
  intros (r & vs' & w' & Hrun & Hfit & Hmono & Hgrow).
  exists r, vs', w'.
  unfold RAGSystem.on_vector_store, zoom. rewrite Hrun. auto.
Qed.

Lemma vs_consistent_logged (ev : event) (self : VectorStoreManager.t)
  (w : World) :
  VectorStoreManager.consistent self w ->
  VectorStoreManager.consistent self (logged ev w).
Proof.
  unfold VectorStoreManager.consistent, logged. now cbn.
Qed.

(** A call that leaves the system and the persisted chunks alone keeps
    all there is to keep. *)
Lemma rag_untouched_keeps (A : Type) (m : M RAGSystem.t A) (r : A)
  (self : RAGSystem.t) (w w' : World) :
  RAGSystem.consistent self w ->
  m self w = (Ok r, self, w') ->
  chroma_store w' = chroma_store w ->
  RAGSystem.keeps m self w.
Proof.
  intros [Hrag [Hready [older Hstore]]] Hrun Hsame.
  exists r, self, w'. split; [exact Hrun|].
  split; [split; [exact Hrag|split; [exact Hready|]]|].
  - exists older. now rewrite Hsame.
  - repeat split; auto. exists []. rewrite Hsame. apply nothing_added.
Qed.

Lemma rag_initialize_keeps (cfg : Config.AppConfig) (env : Env)
  (api_key : option pystr) (self : RAGSystem.t) (w : World) :
  RAGSystem.consistent self w ->
  RAGSystem.keeps (RAGSystem.initialize cfg env api_key) self w.
Proof.
  intros Hfit. pose proof Hfit as [Hrag Hvs].
  destruct (GroqClient.__init__ cfg api_key None) as [client|e] eqn:Hnew.
  2: { eapply rag_untouched_keeps with (w' := w);
         [exact Hfit| |reflexivity].
       unfold RAGSystem.initialize. rewrite Hnew. now step. }
  unfold RAGSystem.keeps, RAGSystem.follows, RAGSystem.consistent,
    RAGSystem.initialize,
    RAGSystem.set_groq_client, RAGSystem.set_is_initialized,
    RAGSystem.on_vector_store, RAGSystem.with_vector_store.
  rewrite Hnew. step.
  cbn [RAGSystem.groq_client RAGSystem.vector_store RAGSystem.is_initialized].
  match goal with
  | |- context [GroqClient.test_connection env client ?s1 w] =>
    destruct (test_connection_run env client s1 w)
      as (groq_success & groq_message & request & Htest)
  end.
  rewrite Htest.
  destruct groq_success; cbn [negb].
  - destruct (vs_initialize_fits cfg env
                (vs_consistent_logged (EvPost request) Hvs))
      as (ok & msg & vs' & w' & Hrun & Hfit' & Hinit & Hstore).
    cbn [RAGSystem.vector_store].
    rewrite Hrun.
    destruct ok; cbn [negb orb] in *;
      do 3 eexists; (split; [reflexivity|]);
      cbn [RAGSystem.groq_client RAGSystem.vector_store
           RAGSystem.is_initialized];
      rewrite Hstore; unfold logged; cbn [chroma_store].
    + split; [split; [intros _; split; [discriminate|exact Hinit]
                     |exact Hfit']|].
      split; [reflexivity|]. split; [intros _; exact Hinit|].
      split; [discriminate|]. exists []. apply nothing_added.
    + split; [split; [intros Hi; destruct (Hrag Hi);
                      split; [discriminate|congruence]
                     |exact Hfit']|].
      split; [auto|]. split; [intros Hi; congruence|].
      split; [discriminate|]. exists []. apply nothing_added.
  - do 3 eexists. split; [reflexivity|].
    cbn [RAGSystem.groq_client RAGSystem.vector_store
         RAGSystem.is_initialized].
    split; [split; [intros Hi; destruct (Hrag Hi);
                    split; [discriminate|assumption]
                   |now apply vs_consistent_logged]|].
    split; [auto|]. split; [auto|].
    split; [discriminate|]. exists []. apply nothing_added.
Qed.

(** [DocumentProcessor.process_documents] never raises; the chunks of a
    [True] are those of the splitter, and there is one at least. *)
Lemma dp_process_documents_run (cfg : Config.AppConfig) (env : Env)
  (S : Type) (file_paths : list pystr) (s : S) (w : World) :
  exists ok msg splits,
    DocumentProcessor.process_documents cfg env file_paths s w
    = (Ok (ok, msg, splits), s,
       {| chroma_store := chroma_store w;
          trace := trace w ++ DocumentProcessor.load_events file_paths |}) /\
    if ok then
      text_splitter env (Config.chunk_size (Config.vectorstore cfg))
        (Config.chunk_overlap (Config.vectorstore cfg))
        (fst (DocumentProcessor.loaded env file_paths
                (List.length (trace w))))
      = Ok splits /\
      splits <> []
    else splits = [].
Proof.
  unfold DocumentProcessor.process_documents. step.
  rewrite load_documents_run.
  destruct (DocumentProcessor.loaded env file_paths _) as [ds es].
  cbn [fst].
  destruct ds as [|d ds'].
  - exists false. do 2 eexists. split; reflexivity.
  - unfold DocumentProcessor.split_documents. step.
    destruct (text_splitter env _ _ _) as [[|c cs]|e].
    + exists false. do 2 eexists. split; reflexivity.
    + exists true. do 2 eexists. split; [reflexivity|].
      split; [reflexivity|discriminate].
    + exists false. do 2 eexists. split; reflexivity.
Qed.

Lemma rag_process_documents_keeps (cfg : Config.AppConfig) (env : Env)
  (file_paths : list pystr) (self : RAGSystem.t) (w : World) :
  RAGSystem.consistent self w ->
  RAGSystem.keeps (RAGSystem.process_documents cfg env file_paths) self w.
Proof.
  intros Hfit. pose proof Hfit as [Hrag Hvs].
  destruct (RAGSystem.is_initialized self) eqn:Hinit.
  2: { eapply rag_untouched_keeps with (w' := w);
         [exact Hfit| |reflexivity].
       unfold RAGSystem.process_documents. step. now rewrite Hinit. }
  destruct (dp_process_documents_run cfg env file_paths self w)
    as (ok & msg & splits & Hrun & Hcase).
  destruct ok.
  2: { eapply rag_untouched_keeps; [exact Hfit| |].
       - unfold RAGSystem.process_documents. step.
         rewrite Hinit. cbn [negb]. rewrite Hrun. reflexivity.
       - reflexivity. }
  destruct splits as [|c cs]; [now destruct Hcase|].
  assert (Hvs' :
    VectorStoreManager.consistent (RAGSystem.vector_store self)
      {| chroma_store := chroma_store w;
         trace := trace w ++ DocumentProcessor.load_events file_paths |})
    by exact Hvs.
  destruct (on_vector_store_run self
              (vs_add_documents_keeps env (c :: cs) Hvs'))
    as ([vs_ok vs_msg] & vs' & w' & Hadd & _ & Hfit' & Hmono & Hgrow).
  unfold RAGSystem.keeps, RAGSystem.process_documents. step.
  rewrite Hinit. cbn [negb]. rewrite Hrun. cbn [negb]. rewrite Hadd.
  destruct (Hrag eq_refl) as [Hclient Hready].
  destruct vs_ok; cbn [negb];
    do 3 eexists; (split; [reflexivity|]);
    unfold RAGSystem.consistent, RAGSystem.follows,
      RAGSystem.with_vector_store;
    cbn [RAGSystem.groq_client RAGSystem.vector_store
         RAGSystem.is_initialized];
    (split; [split; [auto|exact Hfit']|]); auto.
Qed.

(** [chat] posts the request that carries the prompt [_create_prompt]
    builds. *)
Lemma chat_posts (env : Env) (S : Type) (self : GroqClient.t)
  (prompt context language full_prompt : pystr) (s : S) (w : World) :
  GroqClient._create_prompt self prompt context language = Ok full_prompt ->
  exists answer,
    GroqClient.chat env self prompt context language s w
    = (Ok answer, s,
       logged (EvPost (GroqClient._create_request self full_prompt)) w).
Proof.
  intros Hprompt.
  unfold GroqClient.chat, GroqClient.chat_body, GroqClient.chat_except.
  rewrite Hprompt. step.
  destruct (requests_post env _ _) as [response|e].
  - destruct (status_code response =? 200)%Z;
      [destruct (json_content response) as [content|e]|];
      try (eexists; reflexivity).
    destruct (is_Timeout e); [|destruct (is_ConnectionError e)];
      eexists; reflexivity.
  - destruct (is_Timeout e); [|destruct (is_ConnectionError e)];
      eexists; reflexivity.
Qed.

(** With no document in the list, [query] answers at once. *)
Lemma query_without_documents (cfg : Config.AppConfig) (env : Env)
  (question : pystr) (self : RAGSystem.t) (w : World) :
  VectorStoreManager.get_document_count (RAGSystem.vector_store self) = 0 ->
  RAGSystem.query cfg env question self w
  = (Ok (if PyStr.eqb (Utils.detect_language cfg env question) u"hindi"
         then u"कृपया पहले दस्तावेज़ अपलोड करके प्रोसेस करें!"
         else u"Please upload and process documents first!", []),
     self, w).
Proof.
  intros Hcount.
  unfold RAGSystem.query, RAGSystem.query_with. step.
  rewrite Hcount. cbn [Nat.eqb]. rewrite no_docs_item.
  rewrite (by_language_item _ _ (detect_language_range cfg env question)).
  reflexivity.
Qed.

(** [query] on a system that is initialized and holds documents: the
    search, then the chat call of the client, if there is one. *)
Lemma query_run (cfg : Config.AppConfig) (env : Env)
  (question : pystr) (self : RAGSystem.t) (w : World) :
  let detected_language := Utils.detect_language cfg env question in
  let vs := RAGSystem.vector_store self in
  VectorStoreManager.get_document_count vs <> 0 ->
  RAGSystem.is_initialized self = true ->
  exists relevant_docs w1,
    VectorStoreManager.similarity_search cfg env question None vs w
      = (Ok relevant_docs, vs, w1) /\
    chroma_store w1 = chroma_store w /\
    match RAGSystem.groq_client self with
    | None =>
      RAGSystem.query cfg env question self w
      = (Ok (Utils.ErrorHandler.handle_api_error
               (VectorStoreManager.none_has_no u"chat") detected_language,
             []),
         self, w1)
    | Some client =>
      exists full_prompt answer,
        GroqClient._create_prompt client question
          (VectorStoreManager.get_context_from_docs relevant_docs)
          detected_language = Ok full_prompt /\
        GroqClient.chat env client question
          (VectorStoreManager.get_context_from_docs relevant_docs)
          detected_language self w1
          = (Ok answer, self,
             logged (EvPost (GroqClient._create_request client full_prompt))
               w1) /\
        RAGSystem.query cfg env question self w
        = (Ok (answer, relevant_docs), self,
           logged (EvPost (GroqClient._create_request client full_prompt))
             w1)
    end.
Proof.
  intros detected_language vs Hcount Hinit.
  apply Nat.eqb_neq in Hcount.
  assert (Hsearch : exists relevant_docs w1,
    VectorStoreManager.similarity_search cfg env question None vs w
      = (Ok relevant_docs, vs, w1) /\
    chroma_store w1 = chroma_store w).
  { rewrite similarity_search_run. destruct (negb _ || _).
    - now exists [], w.
    - cbv zeta. destruct (get_relevant_documents env _ _ _ _);
        do 2 eexists; split; reflexivity. }
  destruct Hsearch as (relevant_docs & w1 & Hsearch & Hstore).
  exists relevant_docs, w1. split; [exact Hsearch|]. split; [exact Hstore|].
  unfold RAGSystem.query, RAGSystem.query_with, RAGSystem.query_try,
    RAGSystem.groq_client_chat, RAGSystem.on_vector_store,
    RAGSystem.with_vector_store.
  fold detected_language. step. fold vs.
  rewrite Hcount, Hinit. cbn [negb]. cbv beta. fold vs. rewrite Hsearch.
  cbn [RAGSystem.groq_client RAGSystem.vector_store
       RAGSystem.is_initialized].
  rewrite Hinit.
  assert (Hself :
    {| RAGSystem.groq_client := RAGSystem.groq_client self;
       RAGSystem.vector_store := vs;
       RAGSystem.is_initialized := true |} = self)
    by (subst vs; destruct self; cbn in *; now subst).
  rewrite Hself.
  destruct (RAGSystem.groq_client self) as [client|]; [|reflexivity].
  destruct (_create_prompt_total client question
              (VectorStoreManager.get_context_from_docs relevant_docs)
              detected_language) as [full_prompt Hprompt].
  exists full_prompt.
  destruct (chat_posts env self w1 Hprompt) as [answer Hchat].
  exists answer. split; [exact Hprompt|]. split; [exact Hchat|].
  now rewrite Hchat.
Qed.

Lemma rag_query_keeps (cfg : Config.AppConfig) (env : Env)
  (question : pystr) (self : RAGSystem.t) (w : World) :
  RAGSystem.consistent self w ->
  RAGSystem.keeps (RAGSystem.query cfg env question) self w.
Proof.
  intros Hfit.
  destruct (Nat.eq_dec
              (VectorStoreManager.get_document_count
                 (RAGSystem.vector_store self)) 0) as [Hcount|Hcount].
  { eapply rag_untouched_keeps with (w' := w); [exact Hfit| |reflexivity].
    now apply query_without_documents. }
  destruct (RAGSystem.is_initialized self) eqn:Hinit.
  - destruct (query_run cfg env question self w Hcount Hinit)
      as (relevant_docs & w1 & _ & Hstore & Hrun).
    destruct (RAGSystem.groq_client self) as [client|].
    + destruct Hrun as (full_prompt & answer & _ & _ & Hrun).
      eapply rag_untouched_keeps; [exact Hfit|exact Hrun|].
      unfold logged. cbn [chroma_store]. exact Hstore.
    + eapply rag_untouched_keeps; [exact Hfit|exact Hrun|exact Hstore].
  - apply Nat.eqb_neq in Hcount.
    destruct (PyStr.eqb (Utils.detect_language cfg env question) u"hindi")
      eqn:Hlang;
      (eapply rag_untouched_keeps with (w' := w);
       [exact Hfit| |reflexivity]);
      unfold RAGSystem.query, RAGSystem.query_with; step;
      rewrite Hcount, Hinit; cbn [negb]; rewrite Hlang; reflexivity.
Qed.

Lemma rag_clear_documents_keeps (cfg : Config.AppConfig) (env : Env)
  (self : RAGSystem.t) (w : World) :
  RAGSystem.consistent self w ->
  RAGSystem.keeps (RAGSystem.clear_documents cfg env) self w.
Proof.
  intros [Hrag Hvs].
  destruct (on_vector_store_run self
              (vs_clear_documents_keeps cfg env Hvs))
    as ([ok msg] & vs' & w' & Hrun & _ & Hfit' & Hmono & Hgrow).
  unfold RAGSystem.keeps, RAGSystem.clear_documents.
  unfold try_except, bind. rewrite Hrun.
  do 3 eexists. split; [reflexivity|].
  unfold RAGSystem.consistent, RAGSystem.follows,
    RAGSystem.with_vector_store.
  cbn [RAGSystem.groq_client RAGSystem.vector_store
       RAGSystem.is_initialized].
  split; [split; [|exact Hfit']|]; auto.
  intros Hi. destruct (Hrag Hi). auto.
Qed.

(** [health_check] never raises and leaves the manager and the persisted
    chunks alone. *)
Lemma health_check_run (env : Env) (self : VectorStoreManager.t)
  (w : World) :
  exists h w',
    VectorStoreManager.health_check env self w = (Ok h, self, w') /\
    chroma_store w' = chroma_store w /\
    (VectorStoreManager.embeddings self = None -> w' = w).
Proof.
  unfold VectorStoreManager.health_check. run.
  destruct (VectorStoreManager.embeddings self) as [emb|]; run;
    [destruct (embed_query env _ _) as [v|e]; run|];
    do 2 eexists; (split; [reflexivity|]); split;
    try reflexivity; discriminate.
Qed.

Lemma rag_with_own_vector_store (self : RAGSystem.t) :
  RAGSystem.with_vector_store (RAGSystem.vector_store self) self = self.
Proof. now destruct self. Qed.

Lemma rag_get_system_status_keeps (cfg : Config.AppConfig) (env : Env)
  (self : RAGSystem.t) (w : World) :
  RAGSystem.consistent self w ->
  RAGSystem.keeps (RAGSystem.get_system_status cfg env) self w.
Proof.
  intros Hfit.
  destruct (health_check_run env (RAGSystem.vector_store self) w)
    as (h & w' & Hrun & Hstore & _).
  destruct (RAGSystem.is_initialized self) eqn:Hinit.
  - eapply rag_untouched_keeps with (w' := w'); [exact Hfit| |exact Hstore].
    unfold RAGSystem.get_system_status, RAGSystem.on_vector_store.
    step. rewrite Hinit, Hrun. cbn [fst snd].
    now rewrite rag_with_own_vector_store.
  - eapply rag_untouched_keeps with (w' := w); [exact Hfit| |reflexivity].
    unfold RAGSystem.get_system_status. step. now rewrite Hinit.
Qed.

(* ===================================================================== *)
(** * Sessions *)
(* ===================================================================== *)

Lemma follows_refl (self : RAGSystem.t) (w : World) :
  RAGSystem.follows self w self w.
Proof.
  repeat split; auto. exists []. apply nothing_added.
Qed.

Lemma follows_trans (s1 s2 s3 : RAGSystem.t) (w1 w2 w3 : World) :
  RAGSystem.follows s1 w1 s2 w2 -> RAGSystem.follows s2 w2 s3 w3 ->
  RAGSystem.follows s1 w1 s3 w3.
Proof.
  intros (Ha & Hb & Hc & [add1 Hd]) (Ha' & Hb' & Hc' & [add2 Hd']).
  repeat split; auto.
  exists (add1 ++ add2). now rewrite Hd', Hd, app_assoc.
Qed.

(** A new system fits every world. *)
Lemma new_system_fits (w : World) : RAGSystem.consistent RAGSystem.__init__ w.
Proof.
  repeat split; try discriminate.
  exists (chroma_store w). apply nothing_added.
Qed.

(** Every call of a session keeps what the methods keep. *)
Lemma call_op_keeps (cfg : Config.AppConfig) (env : Env) (o : Session.op)
  (self : RAGSystem.t) (w : World) :
  RAGSystem.consistent self w ->
  RAGSystem.consistent (fst (Session.call_op cfg env o self w))
    (snd (Session.call_op cfg env o self w)) /\
  RAGSystem.follows self w (fst (Session.call_op cfg env o self w))
    (snd (Session.call_op cfg env o self w)).
Proof.
  intros Hfit.
  destruct o as [api_key|file_paths|question| |]; cbn [Session.call_op].
  - destruct (rag_initialize_keeps cfg env api_key Hfit)
      as (r & self' & w' & -> & Hfit' & Hnext). now split.
  - destruct (rag_process_documents_keeps cfg env file_paths Hfit)
      as (r & self' & w' & -> & Hfit' & Hnext). now split.
  - destruct (rag_query_keeps cfg env question Hfit)
      as (r & self' & w' & -> & Hfit' & Hnext). now split.
  - destruct (rag_clear_documents_keeps cfg env Hfit)
      as (r & self' & w' & -> & Hfit' & Hnext). now split.
  - destruct (rag_get_system_status_keeps cfg env Hfit)
      as (r & self' & w' & -> & Hfit' & Hnext). now split.
Qed.

Lemma calls_keep (cfg : Config.AppConfig) (env : Env)
  (ops : list Session.op) :
  forall (self : RAGSystem.t) (w : World),
    RAGSystem.consistent self w ->
    RAGSystem.consistent (fst (Session.calls cfg env ops self w))
      (snd (Session.calls cfg env ops self w)) /\
    RAGSystem.follows self w (fst (Session.calls cfg env ops self w))
      (snd (Session.calls cfg env ops self w)).
Proof.
  induction ops as [|o ops IH]; intros self w Hfit.
  - split; [exact Hfit|apply follows_refl].
  - cbn [Session.calls].
    destruct (call_op_keeps cfg env o Hfit) as [Hfit1 Hnext1].
    destruct (Session.call_op cfg env o self w) as [self1 w1].
    cbn [fst snd] in *.
    destruct (IH self1 w1 Hfit1) as [Hfit2 Hnext2].
    split; [exact Hfit2|exact (follows_trans Hnext1 Hnext2)].
Qed.

Lemma calls_app (cfg : Config.AppConfig) (env : Env)
  (ops more : list Session.op) :
  forall (self : RAGSystem.t) (w : World),
    Session.calls cfg env (ops ++ more) self w
    = Session.calls cfg env more
        (fst (Session.calls cfg env ops self w))
        (snd (Session.calls cfg env ops self w)).
Proof.
  induction ops as [|o ops IH]; intros self w; [reflexivity|].
  cbn [app Session.calls].
  destruct (Session.call_op cfg env o self w) as [self1 w1]. apply IH.
Qed.

(** X5. Whatever a caller does with a new system, and whatever the
    services answer: a system that says it is initialized holds its chat
    client and an initialized vector store; an initialized vector store
    holds its embeddings and its index; the in-memory list of chunks is the
    end of what the index persists; and the index persists all it did
    before the session. *)
Theorem session_invariant (cfg : Config.AppConfig) (env : Env)
  (ops : list Session.op) (w : World) :
  let self' := fst (Session.calls cfg env ops RAGSystem.__init__ w) in
  let w' := snd (Session.calls cfg env ops RAGSystem.__init__ w) in
  let vs' := RAGSystem.vector_store self' in
  (RAGSystem.is_initialized self' = true ->
   RAGSystem.groq_client self' <> None /\
   VectorStoreManager.is_initialized vs' = true) /\
  (VectorStoreManager.is_initialized vs' = true ->
   VectorStoreManager.embeddings vs' <> None /\
   VectorStoreManager.vectorstore vs' <> None) /\
  (exists older,
     chroma_store w' = older ++ VectorStoreManager.documents vs') /\
  (exists added, chroma_store w' = chroma_store w ++ added).
Proof.
  intros self' w' vs'.
  destruct (calls_keep cfg env ops (new_system_fits w))
    as [[Hrag [Hready Hstore]] (_ & _ & _ & Hgrow)].
  split; [exact Hrag|]. split; [exact Hready|].
  split; [exact Hstore|exact Hgrow].
Qed.

(** X6. No call lowers what an earlier call raised: in a session that
    starts from a new system, a system that is initialized after some calls
    is initialized after any further calls, the same holds for its vector
    store, a chat client that is there stays, and the chunks the index
    persists after some calls are still persisted, in the same order and
    before any new ones, after any further calls ([clear_documents]
    among them). *)
Theorem session_never_lowers (cfg : Config.AppConfig) (env : Env)
  (ops more : list Session.op) (w : World) :
  let before := Session.calls cfg env ops RAGSystem.__init__ w in
  let after := Session.calls cfg env (ops ++ more) RAGSystem.__init__ w in
  (RAGSystem.is_initialized (fst before) = true ->
   RAGSystem.is_initialized (fst after) = true) /\
  (VectorStoreManager.is_initialized (RAGSystem.vector_store (fst before))
     = true ->
   VectorStoreManager.is_initialized (RAGSystem.vector_store (fst after))
     = true) /\
  (RAGSystem.groq_client (fst before) <> None ->
   RAGSystem.groq_client (fst after) <> None) /\
  (exists added,
     chroma_store (snd after) = chroma_store (snd before) ++ added).
Proof.
  intros before after. subst before after.
  rewrite calls_app.
  destruct (calls_keep cfg env ops (new_system_fits w)) as [Hfit _].
  exact (proj2 (calls_keep cfg env more Hfit)).
Qed.

(* ===================================================================== *)
(** * More on the orchestrator *)
(* ===================================================================== *)

(** X7. [query] on a system that is initialized, fits its world and holds
    documents makes two calls and no more: it asks the index for the
    chunks nearest to the question, among all the chunks the index
    persists and with the configured [k], and it posts one chat request,
    whose prompt is built from the question, the text of the chunks found
    and the language detected.  It returns the answer of [chat] (an error
    string included) with the chunks found as sources, none when the
    retrieval raised; the system and the persisted chunks are left as they
    were. *)
Theorem query_ready (cfg : Config.AppConfig) (env : Env)
  (question : pystr) (self : RAGSystem.t) (w : World) :
  let detected_language := Utils.detect_language cfg env question in
  let k := Config.similarity_search_k (Config.vectorstore cfg) in
  let relevant_docs :=
    match get_relevant_documents env (List.length (trace w))
            (chroma_store w) question k with
    | Ok docs => docs
    | Raise _ => []
    end in
  let context := VectorStoreManager.get_context_from_docs relevant_docs in
  let w1 := logged (EvGetRelevantDocuments question k) w in
  VectorStoreManager.get_document_count (RAGSystem.vector_store self) <> 0 ->
  RAGSystem.is_initialized self = true ->
  RAGSystem.consistent self w ->
  exists client full_prompt answer,
    RAGSystem.groq_client self = Some client /\
    GroqClient._create_prompt client question context detected_language
      = Ok full_prompt /\
    GroqClient.chat env client question context detected_language self w1
      = (Ok answer, self,
         logged (EvPost (GroqClient._create_request client full_prompt))
           w1) /\
    RAGSystem.query cfg env question self w
      = (Ok (answer, relevant_docs), self,
         {| chroma_store := chroma_store w;
            trace :=
              trace w
                ++ [EvGetRelevantDocuments question k;
                    EvPost (GroqClient._create_request client
                              full_prompt)] |}).
Proof.
  intros detected_language k relevant_docs context w1 Hcount Hinit
    [Hrag [Hready _]].
  destruct (Hrag Hinit) as [Hclient Hvs].
  destruct (Hready Hvs) as [_ Hindex].
  destruct (query_run cfg env question self w Hcount Hinit)
    as (docs & w1' & Hsearch & _ & Hrun).
  rewrite similarity_search_run, Hvs in Hsearch.
  destruct (VectorStoreManager.vectorstore (RAGSystem.vector_store self))
    as [index|]; [|contradiction].
  cbn [negb orb is_None] in Hsearch. cbv zeta in Hsearch.
  change (VectorStoreManager.k_or_default cfg None) with k in Hsearch.
  assert (Hfound : docs = relevant_docs /\ w1' = w1).
  { subst relevant_docs w1.
    destruct (get_relevant_documents env _ _ _ _);
      injection Hsearch as <- <-; now split. }
  destruct Hfound as [-> ->].
  destruct (RAGSystem.groq_client self) as [client|]; [|contradiction].
  destruct Hrun as (full_prompt & answer & Hprompt & Hchat & Hrun).
  exists client, full_prompt, answer.
  split; [reflexivity|]. split; [exact Hprompt|]. split; [exact Hchat|].
  rewrite Hrun. unfold w1, logged. cbn [chroma_store trace].
  now rewrite <- app_assoc.
Qed.

(** [RAGSystem.clear_documents] never raises; the list is empty after it
    and the persisted chunks are those before it. *)
Lemma rag_clear_documents_run (cfg : Config.AppConfig) (env : Env)
  (self : RAGSystem.t) (w : World) :
  exists ok msg vs' w',
    RAGSystem.clear_documents cfg env self w
      = (Ok (ok, msg), RAGSystem.with_vector_store vs' self, w') /\
    VectorStoreManager.documents vs' = [] /\
    chroma_store w' = chroma_store w.
Proof.
  destruct (clear_documents_run cfg env (RAGSystem.vector_store self) w)
    as (ok & msg & vs' & w' & Hrun & Hdocs & _ & _ & Hstore & _).
  exists ok, msg, vs', w'.
  unfold RAGSystem.clear_documents, RAGSystem.on_vector_store.
  step. rewrite Hrun. now repeat split.
Qed.

(** X8. After [clear_documents], whatever it returns and in whatever state
    it was called, the document count is zero and [query] answers with the
    message that asks for documents, in the language of the question,
    without a search and without a chat request, while the index persists
    the chunks it did. *)
Theorem clear_then_query (cfg : Config.AppConfig) (env : Env)
  (question : pystr) (self : RAGSystem.t) (w : World) :
  let out := RAGSystem.clear_documents cfg env self w in
  let self' := snd (fst out) in
  let w' := snd out in
  VectorStoreManager.get_document_count (RAGSystem.vector_store self') = 0 /\
  chroma_store w' = chroma_store w /\
  RAGSystem.query cfg env question self' w'
  = (Ok (if PyStr.eqb (Utils.detect_language cfg env question) u"hindi"
         then u"कृपया पहले दस्तावेज़ अपलोड करके प्रोसेस करें!"
         else u"Please upload and process documents first!", []),
     self', w').
Proof.
  intros out self' w'.
  destruct (rag_clear_documents_run cfg env self w)
    as (ok & msg & vs' & w1 & Hrun & Hdocs & Hstore).
  subst out self' w'. rewrite Hrun. cbn [fst snd].
  assert (Hcount :
    VectorStoreManager.get_document_count
      (RAGSystem.vector_store (RAGSystem.with_vector_store vs' self)) = 0).
  { unfold VectorStoreManager.get_document_count. cbn. now rewrite Hdocs. }
  split; [exact Hcount|]. split; [exact Hstore|].
  now apply query_without_documents.
Qed.

Lemma dot_added (rest : pystr) :
  u". Added " ++ rest = u". " ++ u"Added " ++ rest.
Proof. vm_compute. reflexivity. Qed.

(** X9. [RAGSystem.process_documents] never raises and touches neither
    the flag nor the chat client.  Before [initialize] it refuses and calls
    nothing.  When it returns [True], the chunks the splitter made of the
    loaded documents (one at least) are appended to the in-memory list and
    to the persisted chunks, after the loads and one [add_documents] call,
    and the message ends with the number of chunks added; when it returns
    [False] the system and the persisted chunks are as they were. *)
Theorem rag_process_documents_outcome (cfg : Config.AppConfig) (env : Env)
  (file_paths : list pystr) (self : RAGSystem.t) (w : World) :
  let documents :=
    fst (DocumentProcessor.loaded env file_paths (List.length (trace w))) in
  let chunks :=
    text_splitter env (Config.chunk_size (Config.vectorstore cfg))
      (Config.chunk_overlap (Config.vectorstore cfg)) documents in
  exists ok msg self' w',
    RAGSystem.process_documents cfg env file_paths self w
      = (Ok (ok, msg), self', w') /\
    RAGSystem.is_initialized self' = RAGSystem.is_initialized self /\
    RAGSystem.groq_client self' = RAGSystem.groq_client self /\
    (RAGSystem.is_initialized self = false ->
     ok = false /\ msg = u"RAG system not initialized" /\ w' = w) /\
    if ok then
      exists splits said,
        chunks = Ok splits /\ splits <> [] /\
        VectorStoreManager.documents (RAGSystem.vector_store self')
          = VectorStoreManager.documents (RAGSystem.vector_store self)
              ++ splits /\
        chroma_store w' = chroma_store w ++ splits /\
        trace w'
          = trace w ++ DocumentProcessor.load_events file_paths
              ++ [EvAddDocuments splits] /\
        msg = said ++ u". Added " ++ of_nat (List.length splits)
                ++ u" document chunks to vector store"
    else
      self' = self /\ chroma_store w' = chroma_store w.
Proof.
  intros documents chunks.
  unfold RAGSystem.process_documents. step.
  destruct (RAGSystem.is_initialized self) eqn:Hinit; cbn [negb];
    [|exists false; do 3 eexists; split; [reflexivity|];
      now repeat split].
  destruct (dp_process_documents_run cfg env file_paths self w)
    as (ok & msg & splits & Hrun & Hcase).
  rewrite Hrun. fold documents chunks in Hcase.
  destruct ok; cbn [negb];
    [|exists false; do 3 eexists; split; [reflexivity|];
      repeat split; auto; discriminate].
  destruct Hcase as [Hchunks Hsome].
  destruct splits as [|c cs]; [contradiction|].
  unfold RAGSystem.on_vector_store, zoom. rewrite add_documents_run.
  cbn [chroma_store trace].
  destruct (VectorStoreManager.is_initialized (RAGSystem.vector_store self));
    cbn [negb];
    [|exists false; do 3 eexists; split; [reflexivity|];
      rewrite rag_with_own_vector_store;
      repeat split; auto; discriminate].
  destruct (VectorStoreManager.vectorstore (RAGSystem.vector_store self));
    [|exists false; do 3 eexists; split; [reflexivity|];
      rewrite rag_with_own_vector_store;
      repeat split; auto; discriminate].
  destruct (store_add_documents env _ _) as [e|];
    [exists false; do 3 eexists; split; [reflexivity|];
     rewrite rag_with_own_vector_store;
     repeat split; auto; discriminate|].
  exists true. do 3 eexists. split; [reflexivity|].
  split; [exact Hinit|]. split; [reflexivity|].
  split; [discriminate|].
  exists (c :: cs), msg.
  split; [exact Hchunks|]. split; [exact Hsome|].
  split; [reflexivity|]. split; [reflexivity|].
  split; [cbn [trace]; now rewrite <- app_assoc|].
  apply (f_equal (app msg)). symmetry. apply dot_added.
Qed.

(** X10. [get_system_status] never raises and changes neither the system
    nor the persisted chunks.  The status carries the flag and the document
    count, which is also the count of the store information; it names the
    model exactly when there is a chat client.  Before [initialize] it has
    no health check and nothing is called; after, it has the health check
    of the vector store, with the same document count. *)
Theorem get_system_status_outcome (cfg : Config.AppConfig) (env : Env)
  (self : RAGSystem.t) (w : World) :
  exists status w',
    RAGSystem.get_system_status cfg env self w = (Ok status, self, w') /\
    chroma_store w' = chroma_store w /\
    RAGSystem.status_is_initialized status = RAGSystem.is_initialized self /\
    RAGSystem.status_document_count status
      = VectorStoreManager.get_document_count (RAGSystem.vector_store self) /\
    VectorStoreManager.info_document_count
      (RAGSystem.status_vector_store_info status)
      = RAGSystem.status_document_count status /\
    is_None (RAGSystem.status_groq_model status)
      = is_None (RAGSystem.groq_client self) /\
    if RAGSystem.is_initialized self then
      exists h,
        RAGSystem.status_health_check status = Some h /\
        VectorStoreManager.health_check env (RAGSystem.vector_store self) w
          = (Ok h, RAGSystem.vector_store self, w') /\
        VectorStoreManager.document_count h
          = RAGSystem.status_document_count status
    else
      RAGSystem.status_health_check status = None /\ w' = w.
Proof.
  assert (Hhealth : exists h w',
    VectorStoreManager.health_check env (RAGSystem.vector_store self) w
      = (Ok h, RAGSystem.vector_store self, w') /\
    chroma_store w' = chroma_store w /\
    VectorStoreManager.document_count h
      = VectorStoreManager.get_document_count (RAGSystem.vector_store self)).
  { unfold VectorStoreManager.health_check. run.
    destruct (VectorStoreManager.embeddings (RAGSystem.vector_store self))
      as [emb|]; run;
      [destruct (embed_query env _ _) as [v|e]; run|];
      do 2 eexists; (split; [reflexivity|]); now split. }
  destruct Hhealth as (h & w' & Hrun & Hstore & Hcount).
  unfold RAGSystem.get_system_status, RAGSystem.on_vector_store. step.
  destruct (RAGSystem.is_initialized self) eqn:Hinit.
  - rewrite Hrun. cbn [fst snd]. rewrite rag_with_own_vector_store.
    do 2 eexists. split; [reflexivity|].
    cbn [RAGSystem.status_is_initialized RAGSystem.status_document_count
         RAGSystem.status_vector_store_info RAGSystem.status_groq_model
         RAGSystem.status_health_check].
    split; [exact Hstore|]. split; [reflexivity|]. split; [reflexivity|].
    split; [reflexivity|].
    split; [now destruct (RAGSystem.groq_client self)|].
    exists h. now repeat split.
  - do 2 eexists. split; [reflexivity|].
    cbn [RAGSystem.status_is_initialized RAGSystem.status_document_count
         RAGSystem.status_vector_store_info RAGSystem.status_groq_model
         RAGSystem.status_health_check].
    repeat split. now destruct (RAGSystem.groq_client self).
Qed.

(* ===================================================================== *)
(** * More on the chat client *)
(* ===================================================================== *)

Lemma english_is_not_hindi : PyStr.eqb u"english" u"hindi" = false.
Proof. vm_compute. reflexivity. Qed.

Lemma api_error_says_Error (e : exn) :
  contains u"Error" (Utils.ErrorHandler.handle_api_error e u"english")
  = true.
Proof.
  apply contains_iff. unfold Utils.ErrorHandler.handle_api_error.
  rewrite english_is_not_hindi.
  exists u"API ", (u": " ++ exn_str e). vm_compute. reflexivity.
Qed.

Lemma connection_error_says_Error (e : exn) :
  contains u"Error"
    (Utils.ErrorHandler.handle_connection_error e u"english")
  = true.
Proof.
  apply contains_iff. unfold Utils.ErrorHandler.handle_connection_error.
  rewrite english_is_not_hindi.
  exists u"Connection ", (u": " ++ exn_str e). vm_compute. reflexivity.
Qed.

(** X11. [test_connection] never raises and posts one request, the chat
    request for ["Hello"] in English.  It returns [True] exactly when the
    endpoint answers with status 200 and a content that does not hold the
    word ["Error"]: every failure of [chat] is reported in a string that
    holds it, and so is an answer of the model that holds it.  The message
    of a [False] holds the word. *)
Theorem test_connection_verdict (env : Env) (S : Type) (self : GroqClient.t)
  (s : S) (w : World) :
  exists full_prompt ok msg,
    GroqClient._create_prompt self u"Hello" [] u"english" = Ok full_prompt /\
    GroqClient.test_connection env self s w
      = (Ok (ok, msg), s,
         logged (EvPost (GroqClient._create_request self full_prompt)) w) /\
    (ok = true <->
     exists response content,
       requests_post env (List.length (trace w))
         (GroqClient._create_request self full_prompt) = Ok response /\
       status_code response = 200%Z /\
       json_content response = Ok content /\
       contains u"Error" content = false) /\
    (if ok then msg = u"Groq API connection successful"
     else contains u"Error" msg = true).
Proof.
  destruct (_create_prompt_total self u"Hello" [] u"english")
    as [full_prompt Hprompt].
  exists full_prompt.
  unfold GroqClient.test_connection, GroqClient.chat, GroqClient.chat_body,
    GroqClient.chat_except.
  rewrite Hprompt. step.
  destruct (requests_post env _ _) as [response|e] eqn:Hpost.
  - destruct (status_code response =? 200)%Z eqn:Hstatus.
    + destruct (json_content response) as [content|e] eqn:Hjson.
      * destruct (contains u"Error" content) eqn:Hword.
        -- exists false, content. repeat split; try assumption;
             try discriminate.
           intros (r & c & Hr & _ & Hj & Hc). congruence.
        -- exists true. eexists. repeat split.
           intros _. exists response, content.
           apply Z.eqb_eq in Hstatus. now repeat split.
      * destruct (is_Timeout e); [|destruct (is_ConnectionError e)];
          rewrite ?connection_error_says_Error, ?api_error_says_Error;
          exists false; eexists;
          (split; [reflexivity|]); (split; [reflexivity|]);
          (split; [split; [discriminate|]|]);
          auto using connection_error_says_Error, api_error_says_Error;
          intros (r & c & Hr & _ & Hj & _); congruence.
    + rewrite api_error_says_Error.
      exists false. eexists.
      split; [reflexivity|]. split; [reflexivity|].
      split; [split; [discriminate|]|apply api_error_says_Error].
      intros (r & c & Hr & Hs & _). apply Z.eqb_neq in Hstatus. congruence.
  - destruct (is_Timeout e); [|destruct (is_ConnectionError e)];
      rewrite ?connection_error_says_Error, ?api_error_says_Error;
      exists false; eexists;
      (split; [reflexivity|]); (split; [reflexivity|]);
      (split; [split; [discriminate|]|]);
      auto using connection_error_says_Error, api_error_says_Error;
      intros (r & c & Hr & _); congruence.
Qed.

Lemma eqb_sym (a : pystr) : forall b, PyStr.eqb a b = PyStr.eqb b a.
Proof.
  induction a as [|x a IH]; intros [|y b]; cbn; try reflexivity.
  now rewrite N.eqb_sym, IH.
Qed.

(** [self.system_prompts.get(language, self.system_prompts['english'])] *)
Lemma system_prompt_of (language : pystr) :
  dict_get GroqClient.system_prompts language Utils.english_prompt
  = if PyStr.eqb language u"hindi" then Utils.hindi_prompt
    else Utils.english_prompt.
Proof.
  unfold dict_get, GroqClient.system_prompts, Utils.get_system_prompts.
  cbn [dict_item].
  rewrite (eqb_sym u"hindi" language), (eqb_sym u"english" language).
  destruct (PyStr.eqb language u"hindi"); [reflexivity|].
  destruct (PyStr.eqb language u"english"); reflexivity.
Qed.

(** X12. [_create_prompt] builds a prompt for every question, context and
    language, and never raises: the prompt begins with the Hindi
    instruction when the language is ["hindi"], and with the English one
    for every other language, known or not; the question is in it, and so
    is the context. *)
Theorem create_prompt_shape (self : GroqClient.t)
  (question context language : pystr) :
  exists full_prompt,
    GroqClient._create_prompt self question context language
      = Ok full_prompt /\
    starts_with
      (if PyStr.eqb language u"hindi" then Utils.hindi_prompt
       else Utils.english_prompt) full_prompt = true /\
    Contains question full_prompt /\
    Contains context full_prompt.
Proof.
  unfold GroqClient._create_prompt.
  rewrite english_prompt_item, system_prompt_of.
  destruct (PyStr.eqb language u"hindi"); destruct context as [|c context];
    eexists; (split; [reflexivity|]); (split; [apply starts_with_app|]);
    split;
    repeat first [apply Contains_here | apply Contains_after];
    exists []; eexists; cbn [app]; reflexivity.
Qed.

(* ===================================================================== *)
(** * The context of a prompt *)
(* ===================================================================== *)

Lemma join_contains (sep p : pystr) (parts : list pystr) :
  In p parts -> Contains p (join sep parts).
Proof.
  induction parts as [|q [|q' rest] IH]; intros Hin.
  - destruct Hin.
  - destruct Hin as [->|[]]. exists [], []. cbn. now rewrite app_nil_r.
  - destruct Hin as [->|Hin].
    + apply Contains_here.
    + change (join sep (q :: q' :: rest))
        with (q ++ sep ++ join sep (q' :: rest)).
      apply Contains_after, Contains_after, IH, Hin.
Qed.

Lemma join_length (sep : pystr) (parts : list pystr) :
  List.length (join sep parts)
  = list_sum (map (@List.length N) parts)
      + List.length sep * (List.length parts - 1).
Proof.
  induction parts as [|q [|q' rest] IH].
  - cbn. lia.
  - cbn. lia.
  - change (join sep (q :: q' :: rest))
      with (q ++ sep ++ join sep (q' :: rest)).
    rewrite !length_app, IH. cbn [map list_sum List.length Nat.sub].
    rewrite !Nat.sub_0_r, (Nat.mul_succ_r _ (List.length rest)).
    unfold list_sum. cbn [fold_right]. lia.
Qed.

(** X13. The context [get_context_from_docs] makes of the chunks found
    holds the text of every one of them, whole: its length is the sum of
    the lengths of the texts and of two characters between neighbours. *)
Theorem context_holds_every_document (docs : list Document) :
  (forall doc, In doc docs ->
     Contains (page_content doc)
       (VectorStoreManager.get_context_from_docs docs)) /\
  List.length (VectorStoreManager.get_context_from_docs docs)
  = list_sum (map (fun doc => List.length (page_content doc)) docs)
      + 2 * (List.length docs - 1).
Proof.
  assert (Hjoin : VectorStoreManager.get_context_from_docs docs
                  = join (nl ++ nl) (map page_content docs))
    by now destruct docs.
  rewrite Hjoin. split.
  - intros doc Hin. apply join_contains. now apply in_map.
  - rewrite join_length, map_map, length_map. reflexivity.
Qed.

(* ===================================================================== *)
(** * Files *)
(* ===================================================================== *)

Lemma last_field_after_dot (sep : N) (ext : pystr) :
  existsb (N.eqb sep) ext = false ->
  forall stem, last_field sep (stem ++ sep :: ext) = ext.
Proof.
  intros Hfree stem. induction stem as [|c stem IH].
  - cbn [app last_field]. now rewrite Hfree, N.eqb_refl.
  - cbn [app last_field].
    rewrite existsb_app. cbn [existsb]. rewrite N.eqb_refl.
    now rewrite orb_true_r.
Qed.

Lemma dot_eqb (a b : pystr) :
  PyStr.eqb (u"." ++ a) (u"." ++ b) = PyStr.eqb a b.
Proof. reflexivity. Qed.

Lemma validate_by_extension (filename : pystr) :
  DocumentProcessor.validate_file_format filename
  = existsb (PyStr.eqb (lower (last_field 46 filename))) [u"pdf"; u"txt"].
Proof.
  unfold DocumentProcessor.validate_file_format,
    DocumentProcessor.supported_formats.
  cbn [existsb].
  change u".pdf" with (u"." ++ u"pdf").
  change u".txt" with (u"." ++ u"txt").
  now rewrite !dot_eqb.
Qed.

(** X14. Whether a file is accepted depends on what follows the last dot
    of its name alone, compared without regard to case: it is accepted
    exactly when this is [pdf] or [txt].  A name with no dot is taken whole
    as its extension, so the name [pdf] is accepted.  The two validators
    ([validate_file] of the system, [validate_file_type] of the utilities)
    give the same answer, and a file is accepted exactly when
    [load_documents] has a loader for it. *)
Theorem validate_file_extension (stem ext : pystr) :
  existsb (N.eqb 46) ext = false ->
  let valid := existsb (PyStr.eqb (lower ext)) [u"pdf"; u"txt"] in
  RAGSystem.validate_file (stem ++ u"." ++ ext) = valid /\
  RAGSystem.validate_file ext = valid /\
  Utils.validate_file_type (stem ++ u"." ++ ext) = valid /\
  is_None (DocumentProcessor._get_loader (stem ++ u"." ++ ext))
  = negb valid.
Proof.
  intros Hfree valid.
  assert (Hone : RAGSystem.validate_file (stem ++ u"." ++ ext) = valid).
  { unfold RAGSystem.validate_file. rewrite validate_by_extension.
    change (u"." ++ ext) with (46%N :: ext).
    now rewrite (last_field_after_dot 46 ext Hfree). }
  split; [exact Hone|]. split; [|split].
  - unfold RAGSystem.validate_file. rewrite validate_by_extension.
    now rewrite (proj1 (last_field_spec 46 ext) Hfree).
  - exact Hone.
  - unfold RAGSystem.validate_file in Hone.
    rewrite validate_matches_loader in Hone. rewrite <- Hone.
    now destruct (DocumentProcessor._get_loader _).
Qed.

(** What a batch loads when the files [validate_file_format] refuses are
    left out of it. *)
Lemma loaded_filter (env : Env) (file_paths : list pystr) :
  forall n,
    fst (DocumentProcessor.loaded env
           (filter DocumentProcessor.validate_file_format file_paths) n)
    = fst (DocumentProcessor.loaded env file_paths n) /\
    List.length (snd (DocumentProcessor.loaded env file_paths n))
    = List.length
        (snd (DocumentProcessor.loaded env
                (filter DocumentProcessor.validate_file_format file_paths)
                n))
      + List.length
          (filter (fun p => negb (DocumentProcessor.validate_file_format p))
                  file_paths).
Proof.
  induction file_paths as [|p rest IH]; intros n; [now split|].
  cbn [filter]. rewrite validate_matches_loader.
  cbn [DocumentProcessor.loaded].
  destruct (DocumentProcessor._get_loader p) as [loader|] eqn:Hloader;
    cbn [is_None negb].
  - cbn [DocumentProcessor.loaded]. rewrite Hloader.
    destruct (IH (S n)) as [Hdocs Herrs].
    destruct (DocumentProcessor.loaded env rest (S n)) as [ds es].
    destruct (DocumentProcessor.loaded env (filter _ rest) (S n))
      as [ds' es'].
    cbn [fst snd] in *. subst ds'.
    destruct (load env n loader); cbn [fst snd List.length]; split;
      try reflexivity; lia.
  - destruct (IH n) as [Hdocs Herrs].
    destruct (DocumentProcessor.loaded env rest n) as [ds es].
    destruct (DocumentProcessor.loaded env (filter _ rest) n) as [ds' es'].
    cbn [fst snd List.length] in *. split; [exact Hdocs|lia].
Qed.

Lemma load_events_filter (file_paths : list pystr) :
  DocumentProcessor.load_events
    (filter DocumentProcessor.validate_file_format file_paths)
  = DocumentProcessor.load_events file_paths /\
  List.length (DocumentProcessor.load_events file_paths)
  = List.length (filter DocumentProcessor.validate_file_format file_paths).
Proof.
  unfold DocumentProcessor.load_events.
  induction file_paths as [|p rest [IHe IHn]]; [now split|].
  cbn [filter flat_map]. rewrite validate_matches_loader.
  destruct (DocumentProcessor._get_loader p) as [loader|] eqn:Hloader;
    cbn [is_None negb flat_map]; rewrite ?Hloader, ?length_app, ?IHe, IHn;
    now split.
Qed.

(** X15. [load_documents] never raises, and the files that
    [validate_file_format] refuses cost nothing but a message: the batch
    loads the same documents, with the same calls, as the batch without
    them, and reports one error more for each of them.  One load is made
    for each accepted file, whatever the loads answer: none is tried
    again. *)
Theorem load_documents_skips_unsupported (env : Env) (S : Type)
  (file_paths : list pystr) (s : S) (w : World) :
  let accepted :=
    filter DocumentProcessor.validate_file_format file_paths in
  let refused :=
    filter (fun p => negb (DocumentProcessor.validate_file_format p))
           file_paths in
  exists documents errors errors' w',
    DocumentProcessor.load_documents env file_paths s w
      = (Ok (documents, errors), s, w') /\
    DocumentProcessor.load_documents env accepted s w
      = (Ok (documents, errors'), s, w') /\
    List.length errors = List.length errors' + List.length refused /\
    chroma_store w' = chroma_store w /\
    List.length (trace w') = List.length (trace w) + List.length accepted.
Proof.
  intros accepted refused.
  rewrite !load_documents_run.
  destruct (loaded_filter env file_paths (List.length (trace w)))
    as [Hdocs Herrs].
  destruct (load_events_filter file_paths) as [Hevents Hcount].
  fold accepted refused in Hdocs, Herrs, Hevents, Hcount.
  rewrite Hevents.
  destruct (DocumentProcessor.loaded env file_paths _) as [ds es].
  destruct (DocumentProcessor.loaded env accepted _) as [ds' es'].
  cbn [fst snd] in *. subst ds'.
  exists ds, es, es'. eexists.
  split; [reflexivity|]. split; [reflexivity|]. split; [exact Herrs|].
  split; [reflexivity|].
  cbn [trace]. now rewrite length_app, Hcount.
Qed.

(** X16. The statistics of the chunks held: their number (the document
    count), the sum of their lengths, and an average that is the quotient
    of the two rounded down; with no chunk the three are zero and nothing
    is divided. *)
Theorem document_stats_average (self : RAGSystem.t) :
  let docs := VectorStoreManager.documents (RAGSystem.vector_store self) in
  let '(total_chunks, total_characters, average_chunk_size) :=
    RAGSystem.get_document_stats self in
  total_chunks = VectorStoreManager.get_document_count
                   (RAGSystem.vector_store self) /\
  total_characters
  = list_sum (map (fun doc => List.length (page_content doc)) docs) /\
  average_chunk_size * total_chunks <= total_characters /\
  (total_chunks = 0 -> total_characters = 0 /\ average_chunk_size = 0) /\
  (total_chunks <> 0 ->
   total_characters < (average_chunk_size + 1) * total_chunks).
Proof.
  unfold RAGSystem.get_document_stats, DocumentProcessor.get_document_stats,
    VectorStoreManager.get_document_count.
  destruct (VectorStoreManager.documents (RAGSystem.vector_store self))
    as [|d ds] eqn:Hdocs; cbv zeta.
  - repeat split; auto; lia.
  - set (count := List.length (d :: ds)).
    set (total := list_sum _).
    assert (Hpos : count <> 0) by (subst count; discriminate).
    pose proof (Nat.div_mod_eq total count) as Hdiv.
    pose proof (Nat.mod_upper_bound total count Hpos) as Hmod.
    repeat split; try reflexivity; nia.
Qed.

(* ===================================================================== *)
(** * More on language detection *)
(* ===================================================================== *)

Lemma filter_within (A : Type) (p q : A -> bool) (l : list A) :
  (forall x, p x = true -> q x = true) ->
  filter p (filter q l) = filter p l.
Proof.
  intros Himp. induction l as [|x l IH]; [reflexivity|].
  cbn [filter]. destruct (q x) eqn:Hq; cbn [filter].
  - now rewrite IH.
  - destruct (p x) eqn:Hp; [|exact IH].
    apply Himp in Hp. congruence.
Qed.

(** X17. The language detected depends on the letters and the Devanagari
    characters of the text alone, and not on their order: digits, spaces
    and punctuation can be taken out of a text, and two texts exchanged,
    without changing it. *)
Theorem detect_language_letters_only (cfg : Config.AppConfig) (env : Env)
  (text other : pystr) :
  Utils.detect_language cfg env text
  = Utils.detect_language cfg env
      (filter (fun c => isalpha env c || Utils.is_devanagari c) text) /\
  Utils.detect_language cfg env (text ++ other)
  = Utils.detect_language cfg env (other ++ text).
Proof.
  unfold Utils.detect_language. cbv zeta. split.
  - rewrite !filter_within; [reflexivity| |];
      intros c Hc; rewrite Hc; now rewrite ?orb_true_r.
  - rewrite !filter_app, !length_app.
    now rewrite (Nat.add_comm (List.length (filter Utils.is_devanagari text))),
      (Nat.add_comm (List.length (filter (isalpha env) text))).
Qed.

(* ===================================================================== *)
(** * The configuration and the client *)
(* ===================================================================== *)

(** X18. With a configuration read from an environment that sets
    [GROQ_API_KEY] (and nothing else), [GroqClient()] is built without
    arguments and holds the key of the environment; a key given as an
    argument that is not empty takes its place.  The client cannot be
    built only when no key is given and the configuration has none, which
    [from_env] refuses. *)
Theorem from_env_gives_client (GROQ_API_KEY : option pystr)
  (cfg : Config.AppConfig) :
  Config.from_env GROQ_API_KEY = Ok cfg ->
  exists key client,
    GROQ_API_KEY = Some key /\ key <> [] /\
    GroqClient.__init__ cfg None None = Ok client /\
    GroqClient.api_key client = key /\
    GroqClient.__init__ cfg (Some []) None = Ok client /\
    forall given,
      given <> [] ->
      exists client',
        GroqClient.__init__ cfg (Some given) None = Ok client' /\
        GroqClient.api_key client' = given /\
        GroqClient.model client' = GroqClient.model client.
Proof.
  unfold Config.from_env.
  destruct GROQ_API_KEY as [[|c key]|]; try discriminate.
  intros Hcfg. injection Hcfg as <-.
  unfold GroqClient.__init__, GroqClient.or_default, Config.defaults.
  cbn [GroqClient.api_key Config.api Config.groq_api_key Config.groq_model
       Config.groq_base_url Config.groq_timeout Config.groq_temperature
       Config.groq_max_tokens].
  exists (c :: key). eexists.
  split; [reflexivity|]. split; [discriminate|].
  split; [reflexivity|]. split; [reflexivity|]. split; [reflexivity|].
  intros [|g given] Hgiven; [contradiction|].
  eexists. split; [reflexivity|].
  cbn [GroqClient.api_key GroqClient.model]. split; reflexivity.
Qed.

(* ===================================================================== *)
(** * More theorems at work *)
(* ===================================================================== *)

(** One more chunk is added to the manager that holds one. *)
Lemma ready_add_more :
  fst (fst (VectorStoreManager.add_documents Sample.env
              [Sample.doc u"more"] Sample.ready_manager Sample.ready_world))
  = Ok (true, u"Added 1 document chunks to vector store").
Proof. vm_compute. reflexivity. Qed.

(** The search that follows finds both, the older one first. *)
Lemma search_after_add_witness :
  fst (fst (VectorStoreManager.similarity_search Sample.cfg Sample.env
              u"chunk" None
              (snd (fst (VectorStoreManager.add_documents Sample.env
                           [Sample.doc u"more"] Sample.ready_manager
                           Sample.ready_world)))
              (snd (VectorStoreManager.add_documents Sample.env
                      [Sample.doc u"more"] Sample.ready_manager
                      Sample.ready_world))))
  = Ok [Sample.doc u"a chunk"; Sample.doc u"more"].
Proof.
  rewrite (@search_after_add Sample.cfg Sample.env [Sample.doc u"more"]
             u"chunk" None Sample.ready_manager Sample.ready_world
             (ex_intro _ _ ready_add_more)).
  reflexivity.
Defined.

(** The sample system that is ready fits the world where its chunk is
    persisted. *)
Lemma ready_system_fits :
  RAGSystem.consistent Sample.ready_system Sample.ready_world.
Proof.
  split; [intros _; split; [discriminate|reflexivity]|].
  split; [intros _; split; discriminate|].
  now exists [].
Qed.

Lemma ready_system_holds_documents :
  VectorStoreManager.get_document_count
    (RAGSystem.vector_store Sample.ready_system) <> 0.
Proof. discriminate. Qed.

(** A question to the sample system that is ready: the chunk is found and
    one request is posted. *)
Lemma query_ready_witness :
  exists full_prompt answer,
    RAGSystem.query Sample.cfg Sample.env u"hello" Sample.ready_system
      Sample.ready_world
    = (Ok (answer, [Sample.doc u"a chunk"]), Sample.ready_system,
       {| chroma_store := [Sample.doc u"a chunk"];
          trace :=
            [EvGetRelevantDocuments u"hello" 3;
             EvPost (GroqClient._create_request Sample.client
                       full_prompt)] |}).
Proof.
  destruct (@query_ready Sample.cfg Sample.env u"hello" Sample.ready_system
              Sample.ready_world ready_system_holds_documents eq_refl
              ready_system_fits)
    as (client & full_prompt & answer & Hclient & _ & _ & Hrun).
  injection Hclient as <-.
  exists full_prompt, answer. exact Hrun.
Defined.

(** Upper case and more than one dot; a name that is an extension and
    nothing else. *)
Lemma validate_file_extension_witness :
  RAGSystem.validate_file (u"Report.final" ++ u"." ++ u"PDF") = true /\
  RAGSystem.validate_file u"PDF" = true.
Proof.
  pose proof (@validate_file_extension u"Report.final" u"PDF" eq_refl) as H.
  cbv zeta in H. destruct H as (Hlong & Hshort & _).
  split; [rewrite Hlong|rewrite Hshort]; reflexivity.
Defined.

(** The client of the sample configuration. *)
Lemma from_env_gives_client_witness :
  exists client,
    GroqClient.__init__ Sample.cfg None None = Ok client /\
    GroqClient.api_key client = u"gsk-sample-key".
Proof.
  destruct (@from_env_gives_client (Some u"gsk-sample-key") Sample.cfg
              eq_refl)
    as (key & client & Hkey & _ & Hnew & Hheld & _).
  exists client. split; [exact Hnew|].
  rewrite Hheld. now injection Hkey as <-.
Defined.
